(** * backaind: settings endpoints, session resolution and authorization gates

    A shallow embedding of [backaind/settings.py] (the password and
    external-providers views and [get_settings]) together with the parts of
    [backaind/auth.py] and [backaind/db.py] these views call, and of the
    request sequences exercised by [tests/test_auth.py]. *)

From Stdlib Require Import ZArith NArith Ascii String.
From stdpp Require Import base option list gmap.

Local Open Scope Z_scope.

(** ** Python strings *)

(** A Python [str] is a sequence of Unicode code points. *)
Definition str : Type := list N.

(** A literal of the source, read code point by code point. *)
Definition py (s : string) : str :=
  map N_of_ascii (list_ascii_of_string s).

(** [str.isspace] on a single code point: the code points CPython's
    [_PyUnicode_IsWhitespace] accepts. *)
Definition isspace (c : N) : bool :=
  ((9 <=? c) && (c <=? 13) || (28 <=? c) && (c <=? 32)
   || (c =? 133) || (c =? 160) || (c =? 5760)
   || (8192 <=? c) && (c <=? 8202)
   || (c =? 8232) || (c =? 8233) || (c =? 8239) || (c =? 8287)
   || (c =? 12288))%N.

Fixpoint lstrip (s : str) : str :=
  match s with
  | c :: s' => if isspace c then lstrip s' else s
  | [] => []
  end.

Definition rstrip (s : str) : str := reverse (lstrip (reverse s)).

(** [s.strip()] *)
Definition strip (s : str) : str := lstrip (rstrip s).

(** Truth value of a [str]: the empty string is false. *)
Definition truthy (s : str) : bool :=
  match s with [] => false | _ => true end.

(** ** The database

    Relational rows as section 6 of the specification lays them out:
    [user(id, username, password)] and [settings(user_id, domain, name,
    value)], the latter with a uniqueness constraint over
    [(user_id, domain, name)]. *)

Record user_row := UserRow {
  row_id : Z;
  row_username : str;
  row_password : str
}.

Record setting := Setting {
  user_id : Z;
  domain : str;
  name : str;
  value : str
}.

Record database := Database {
  user_table : list user_row;
  settings_table : list setting
}.

#[global] Instance setting_eq_dec : EqDecision setting.
Proof. solve_decision. Defined.

(** The key of the uniqueness constraint. *)
Definition same_key (uid : Z) (d n : str) (r : setting) : bool :=
  bool_decide (user_id r = uid) && bool_decide (domain r = d)
  && bool_decide (name r = n).

(** [INSERT OR REPLACE INTO settings (user_id, domain, name, value)
    VALUES (?, ?, ?, ?)]: the rows in conflict with the new one on the
    unique key are removed, then the new row is added. *)
Definition insert_or_replace (r : setting) (t : list setting) : list setting :=
  filter (λ r', same_key (user_id r) (domain r) (name r) r' = false) t ++ [r].

(** [DELETE FROM settings WHERE user_id = ? AND domain = ? AND name = ?] *)
Definition delete_where (uid : Z) (d n : str) (t : list setting) : list setting :=
  filter (λ r', same_key uid d n r' = false) t.

(** [SELECT domain, name, value FROM settings WHERE user_id = ?] *)
Definition select_settings (uid : Z) (t : list setting) : list setting :=
  filter (λ r', user_id r' = uid) t.

(** [SELECT * FROM user WHERE username = ?], [fetchone()] *)
Definition select_user (uname : str) (t : list user_row) : option user_row :=
  head (filter (λ r, row_username r = uname) t).

(** [SELECT * FROM user WHERE id = ?], [fetchone()] *)
Definition select_user_by_id (uid : Z) (t : list user_row) : option user_row :=
  head (filter (λ r, row_id r = uid) t).

(** [UPDATE user SET password = ? WHERE username = ?] *)
Definition update_password (uname hash : str) (t : list user_row) : list user_row :=
  map (λ r, if bool_decide (row_username r = uname)
            then UserRow (row_id r) (row_username r) hash else r) t.

(** The statements the views send to the database. *)
Inductive statement :=
  | InsertOrReplaceSetting (r : setting)
  | DeleteSetting (uid : Z) (d n : str)
  | SelectSettings (uid : Z)
  | SelectUser (uname : str)
  | SelectUserById (uid : Z)
  | UpdatePassword (uname hash : str)
  | Commit.

Definition is_write (s : statement) : bool :=
  match s with
  | InsertOrReplaceSetting _ | DeleteSetting _ _ _ | UpdatePassword _ _ => true
  | SelectSettings _ | SelectUser _ | SelectUserById _ | Commit => false
  end.

Definition run_statement (s : statement) (d : database) : database :=
  match s with
  | InsertOrReplaceSetting r =>
      Database (user_table d) (insert_or_replace r (settings_table d))
  | DeleteSetting uid dom n =>
      Database (user_table d) (delete_where uid dom n (settings_table d))
  | UpdatePassword uname hash =>
      Database (update_password uname hash (user_table d)) (settings_table d)
  | SelectSettings _ | SelectUser _ | SelectUserById _ | Commit => d
  end.

(** ** The state a request runs in *)

(** Modelled from the spec: [backaind/db.py] is not among the sources.  The
    store is used through its transactional read/write contract (sections 1
    and 5): [disk] holds what has been committed; [conn] is what the
    connection of the running request sees, its own uncommitted writes
    included; [commit] makes [conn] the committed state, and a connection
    closed without a commit loses its writes.  [faults] says, for each
    coming call into the store, whether it raises ([true]); when the list
    is exhausted the store answers.  [trace] records the calls the store
    has carried out, oldest first. *)
Record world := World {
  disk : database;
  conn : database;
  faults : list bool;
  trace : list statement;
  flashes : list (str * str);
  session : gmap str Z;
  environ : gmap str str
}.

Inductive exn :=
  | BadRequestKeyError
  | TypeError
  | DatabaseError
  | UserNotFound.

Inductive result (A : Type) :=
  | Ok (a : A)
  | Raise (e : exn).
Arguments Ok {A} a.
Arguments Raise {A} e.

(** Computations of a view: the world is threaded through, an exception
    stops the computation and keeps the world as it was when raised. *)
Definition M (A : Type) : Type := world → result A * world.

#[global] Instance M_ret : MRet M := λ A a w, (Ok a, w).
#[global] Instance M_bind : MBind M := λ A B f m w,
  match m w with
  | (Ok a, w') => f a w'
  | (Raise e, w') => (Raise e, w')
  end.

Definition raise {A} (e : exn) : M A := λ w, (Raise e, w).

(** One call into the store: [database.execute(...)] or
    [database.commit()]. *)
Definition db_call (s : statement) : M unit := λ w,
  match faults w with
  | true :: fs =>
      (Raise DatabaseError,
       World (disk w) (conn w) fs (trace w) (flashes w) (session w) (environ w))
  | fs =>
      let c := run_statement s (conn w) in
      (Ok (),
       World (match s with Commit => c | _ => disk w end) c (tail fs)
             (trace w ++ [s]) (flashes w) (session w) (environ w))
  end.

Definition read_conn : M database := λ w, (Ok (conn w), w).

(** [flash(message, category)] *)
Definition flash (message category : str) : M unit := λ w,
  (Ok (),
   World (disk w) (conn w) (faults w) (trace w)
         (flashes w ++ [(message, category)]) (session w) (environ w)).

(** Modelled from the spec: the teardown of [backaind/db.py] is not among
    the sources.  When the request ends its connection is closed; what it
    had not committed is gone, and the next request's connection starts from
    the committed state (section 5: one transaction scoped to the request). *)
Definition close_db (w : world) : world :=
  World (disk w) (disk w) (faults w) (trace w) (flashes w) (session w)
        (environ w).

(** ** The request *)

Inductive http_method := GET | HEAD | POST.

(** [request.method] and [request.form]. *)
Record request := Request {
  method : http_method;
  form : gmap str str
}.

(** [g.user]: the keys the views read. *)
Record user_dict := UserDict {
  id : Z;
  username : str
}.

(** The request-scoped [g]: [g.user] and [g.is_demo_user]. *)
Record request_globals := Globals {
  g_user : option user_dict;
  g_is_demo_user : bool
}.

Inductive response :=
  | Redirect (location : str)
  | Rendered (template : str) (settings : gmap str str)
  | Body (text : str).

(** [request.form[key]]: a missing key raises [BadRequestKeyError]. *)
Definition form_get (req : request) (key : str) : M str :=
  match form req !! key with
  | Some v => mret v
  | None => raise BadRequestKeyError
  end.

(** [g.user[...]]: subscripting [None] raises [TypeError]. *)
Definition g_user_get (g : request_globals) : M user_dict :=
  match g_user g with
  | Some u => mret u
  | None => raise TypeError
  end.

(** Modelled from the spec: [is_demo_user] of [backaind/auth.py] is not among
    the sources; it reports the "is demo" flag the Session Resolver computed
    for the request (section 4.2). *)
Definition is_demo_user (g : request_globals) : bool := g_is_demo_user g.

(** ** [backaind/settings.py]: the settings of a user *)

Definition EXTERNAL_PROVIDER_ENVVARS : list str := map py [
  "AI21_API_KEY";
  "ALEPH_ALPHA_API_KEY";
  "ANYSCALE_SERVICE_URL";
  "ANYSCALE_SERVICE_ROUTE";
  "ANYSCALE_SERVICE_TOKEN";
  "AVIARY_URL";
  "AVIARY_TOKEN";
  "BANANA_API_KEY";
  "BEAM_CLIENT_ID";
  "BEAM_CLIENT_SECRET";
  "COHERE_API_KEY";
  "DATABRICKS_HOST";
  "DATABRICKS_API_TOKEN";
  "DEEPINFRA_API_TOKEN";
  "FOREFRONTAI_API_KEY";
  "GOOGLE_API_KEY";
  "GOOGLE_APPLICATION_CREDENTIALS";
  "GOOSEAI_API_KEY";
  "HUGGINGFACE_API_KEY";
  "HUGGINGFACEHUB_API_TOKEN";
  "MOSAICML_API_TOKEN";
  "NLPCLOUD_API_KEY";
  "OPENAI_API_KEY";
  "REPLICATE_API_TOKEN";
  "STOCHASTICAI_API_KEY";
  "TEXT_GENERATION_INFERENCE_TOKEN";
  "WRITER_API_KEY";
  "WRITER_ORG_ID"
]%string.

(** [settings.setdefault(row["domain"], {})[row["name"]] = row["value"]] *)
Definition setdefault_set (acc : gmap str (gmap str str)) (row : setting)
    : gmap str (gmap str str) :=
  <[domain row := <[name row := value row]> (default ∅ (acc !! domain row))]> acc.

(** The loop of [get_settings] over the selected rows. *)
Definition group_rows (rows : list setting) : gmap str (gmap str str) :=
  foldl setdefault_set ∅ rows.

(** [get_settings(user_id)] *)
Definition get_settings (uid : Z) : M (gmap str (gmap str str)) :=
  _ ← db_call (SelectSettings uid);
  d ← read_conn;
  mret (group_rows (select_settings uid (settings_table d))).

(** The body of the loop of [external_providers] for one name, with the
    user id and the domain it is called with as arguments; [raw] is
    [request.form[envvar]] when [envvar in request.form]. *)
Definition upsert_or_clear (uid : Z) (d n : str) (raw : option str) : M unit :=
  match raw with
  | Some v =>
      if truthy (strip v)
      then db_call (InsertOrReplaceSetting (Setting uid d n (strip v)))
      else db_call (DeleteSetting uid d n)
  | None => db_call (DeleteSetting uid d n)
  end.

(** [for envvar in envvars: ...] of [external_providers]. *)
Fixpoint save_envvars (g : request_globals) (req : request)
    (envvars : list str) : M unit :=
  match envvars with
  | [] => mret ()
  | envvar :: rest =>
      u ← g_user_get g;
      _ ← upsert_or_clear (id u) (py "external-providers") envvar
            (form req !! envvar);
      save_envvars g req rest
  end.

(** The view [external_providers], below its decorators. *)
Definition external_providers (req : request) (g : request_globals)
    : M response :=
  _ ← (if is_demo_user g then
         flash
           (py "You cannot change the external providers settings of the demo user.")
           (py "warning")
       else
         match method req with
         | POST =>
             _ ← save_envvars g req EXTERNAL_PROVIDER_ENVVARS;
             _ ← db_call Commit;
             flash (py "Settings saved successfully.") (py "success")
         | _ => mret ()
         end);
  u ← g_user_get g;
  settings ← get_settings (id u);
  mret (Rendered (py "settings/external_providers.html")
          (default ∅ (settings !! py "external-providers"))).

(** What [get_settings(uid)] returns to a later request: the grouping of
    the committed rows of the user. *)
Definition get_all (w : world) (uid : Z) : gmap str (gmap str str) :=
  group_rows (select_settings uid (settings_table (disk w))).

(** ** [backaind/auth.py]: session resolution and the two gates *)

(** The demo identity, as [test_demo_user] reads it from [g.user]. *)
Definition demo_user : user_dict := UserDict (-1) (py "demo").

(** Modelled from the spec: how [backaind/auth.py] reads the demo switch is
    not among the sources; section 6 has a boolean switch read from the
    environment at request time, and the tests switch it on with
    [os.environ["ENABLE_DEMO_MODE"] = "1"] and off by deleting the variable. *)
Definition demo_mode_enabled (w : world) : bool :=
  truthy (default [] (environ w !! py "ENABLE_DEMO_MODE")).

Definition set_session (s : gmap str Z) (w : world) : world :=
  World (disk w) (conn w) (faults w) (trace w) (flashes w) s (environ w).

Definition set_environ (e : gmap str str) (w : world) : world :=
  World (disk w) (conn w) (faults w) (trace w) (flashes w) (session w) e.

(** Modelled from the spec: [load_logged_in_user] of [backaind/auth.py] is
    not among the sources.  The steps are those of section 4.2: no token and
    demo mode gives the demo identity, no token otherwise gives no identity,
    the sentinel token gives the demo identity without a look-up, any other
    token is looked up in the user table and a stale one gives no identity.
    What the resolver does to the transport session is taken from what
    [test_demo_user] reads back from it: after a request served in demo mode
    [session["user_id"]] is the sentinel, and once demo mode is off again a
    session holding the sentinel resolves to no identity and holds no
    [user_id] afterwards. *)
Definition load_logged_in_user : M request_globals := λ w,
  match session w !! py "user_id" with
  | None =>
      if demo_mode_enabled w
      then (Ok (Globals (Some demo_user) true),
            set_session (<[py "user_id" := -1]> (session w)) w)
      else (Ok (Globals None false), w)
  | Some uid =>
      if bool_decide (uid = -1) then
        if demo_mode_enabled w
        then (Ok (Globals (Some demo_user) true), w)
        else (Ok (Globals None false),
              set_session (delete (py "user_id") (session w)) w)
      else
        (_ ← db_call (SelectUserById uid);
         d ← read_conn;
         mret (match select_user_by_id uid (user_table d) with
               | Some r => Globals (Some (UserDict (row_id r) (row_username r))) false
               | None => Globals None false
               end)) w
  end.

(** Modelled from the spec: the resolver read by the letter of section 4.2,
    step 2a ("do not write this into persistent session storage") and step
    3; it leaves the transport session alone. *)
Definition load_logged_in_user_by_the_letter : M request_globals := λ w,
  match session w !! py "user_id" with
  | None =>
      if demo_mode_enabled w
      then (Ok (Globals (Some demo_user) true), w)
      else (Ok (Globals None false), w)
  | Some uid =>
      if bool_decide (uid = -1) then (Ok (Globals (Some demo_user) true), w)
      else
        (_ ← db_call (SelectUserById uid);
         d ← read_conn;
         mret (match select_user_by_id uid (user_table d) with
               | Some r => Globals (Some (UserDict (row_id r) (row_username r))) false
               | None => Globals None false
               end)) w
  end.

(** [redirect(url_for("auth.login"))]; the tests read its [Location]. *)
Definition redirect_to_login : response := Redirect (py "/auth/login").

(** Modelled from the spec: the decorator [login_required] of
    [backaind/auth.py] is not among the sources.  Section 4.3, strict policy:
    the view runs only if an identity is present and is not the demo
    identity; otherwise the answer is the redirect and the view is not
    run. *)
Definition login_required (view : request_globals → M response)
    : request_globals → M response := λ g,
  match g_user g with
  | None => mret redirect_to_login
  | Some _ => if g_is_demo_user g then mret redirect_to_login else view g
  end.

(** Modelled from the spec: the decorator [login_required_allow_demo] of
    [backaind/auth.py] is not among the sources.  Section 4.3, permissive
    policy: the view runs if an identity is present, real or demo. *)
Definition login_required_allow_demo (view : request_globals → M response)
    : request_globals → M response := λ g,
  match g_user g with
  | None => mret redirect_to_login
  | Some _ => view g
  end.

(** ** [tests/test_auth.py] *)

#[global] Instance user_dict_eq_dec : EqDecision user_dict.
Proof. solve_decision. Defined.
#[global] Instance request_globals_eq_dec : EqDecision request_globals.
Proof. solve_decision. Defined.
#[global] Instance response_eq_dec : EqDecision response.
Proof. solve_decision. Defined.
#[global] Instance exn_eq_dec : EqDecision exn.
Proof. solve_decision. Defined.
#[global] Instance result_eq_dec `{EqDecision A} : EqDecision (result A).
Proof. solve_decision. Defined.

(** [client.get("/")] as far as these tests look at it: the resolver runs
    before the view, the request ends; the client keeps the session. *)
Definition client_get (resolve : M request_globals) (w : world)
    : result request_globals * world :=
  let '(r, w') := resolve w in (r, close_db w').

(** [os.environ["ENABLE_DEMO_MODE"] = "1"] *)
Definition enable_demo_mode (w : world) : world :=
  set_environ (<[py "ENABLE_DEMO_MODE" := py "1"]> (environ w)) w.

(** [del os.environ["ENABLE_DEMO_MODE"]] *)
Definition disable_demo_mode (w : world) : world :=
  set_environ (delete (py "ENABLE_DEMO_MODE") (environ w)) w.

(** The three assertions [test_demo_user] makes after a request. *)
Definition sees_nobody (r : result request_globals) (w : world) : bool :=
  bool_decide (session w !! py "user_id" = None)
  && bool_decide (r = Ok (Globals None false)).

Definition sees_demo (r : result request_globals) (w : world) : bool :=
  bool_decide (session w !! py "user_id" = Some (-1))
  && bool_decide (r = Ok (Globals (Some demo_user) true)).

(** [test_demo_user], for a resolver and the world the test starts in. *)
Definition test_demo_user (resolve : M request_globals) (w0 : world) : bool :=
  let '(r1, w1) := client_get resolve w0 in
  let '(r2, w2) := client_get resolve (enable_demo_mode w1) in
  let '(r3, w3) := client_get resolve (disable_demo_mode w2) in
  sees_nobody r1 w1 && sees_demo r2 w2 && sees_nobody r3 w3.

(** [lambda: "the_view"] *)
Definition the_view : request_globals → M response :=
  λ _, mret (Body (py "the_view")).

Definition gate := (request_globals → M response) → request_globals → M response.

(** [response = gate(lambda: "the_view")()] after [client.get("/")]. *)
Definition gate_after_get (resolve : M request_globals) (gt : gate)
    (w : world) : result response :=
  match client_get resolve w with
  | (Ok g, w') => fst (gt the_view g w')
  | (Raise e, _) => Raise e
  end.

(** [auth.login()] of the test fixtures, by what [test_login] reads back:
    [session["user_id"] == 1]. *)
Definition auth_login (w : world) : world :=
  set_session (<[py "user_id" := 1]> (session w)) w.

Definition test_login_required_redirects_if_not_logged_in
    (resolve : M request_globals) (gt : gate) (w0 : world) : bool :=
  bool_decide (gate_after_get resolve gt w0 = Ok redirect_to_login).

Definition test_login_required_declines_demo
    (resolve : M request_globals) (gt : gate) (w0 : world) : bool :=
  bool_decide (gate_after_get resolve gt (enable_demo_mode w0)
               = Ok redirect_to_login).

Definition test_login_required_accepts_user
    (resolve : M request_globals) (gt : gate) (w0 : world) : bool :=
  bool_decide (gate_after_get resolve gt (auth_login w0)
               = Ok (Body (py "the_view"))).

Definition test_login_required_allow_demo_accepts_demo
    (resolve : M request_globals) (gt : gate) (w0 : world) : bool :=
  bool_decide (gate_after_get resolve gt (enable_demo_mode w0)
               = Ok (Body (py "the_view"))).

(** The world the tests start in: the fixture user [test] with id 1
    ([test_login]), a client without cookies, demo mode off. *)
Definition test_world : world :=
  World (Database [UserRow 1 (py "test") []] [])
        (Database [UserRow 1 (py "test") []] [])
        [] [] [] ∅ ∅.

(** ** Vocabulary of the statements *)

(** [m[d][n]], when both keys are present. *)
Definition nested_lookup (m : gmap str (gmap str str)) (d n : str)
    : option str :=
  m !! d ≫= λ dm, dm !! n.

(** The statement one turn of the loop of [external_providers] sends. *)
Definition envvar_statement (uid : Z) (req : request) (envvar : str)
    : statement :=
  match form req !! envvar with
  | Some v =>
      if truthy (strip v)
      then InsertOrReplaceSetting
             (Setting uid (py "external-providers") envvar (strip v))
      else DeleteSetting uid (py "external-providers") envvar
  | None => DeleteSetting uid (py "external-providers") envvar
  end.

(** Calls into the store, one after the other. *)
Fixpoint db_calls (ss : list statement) : M unit :=
  match ss with
  | [] => mret ()
  | s :: rest => _ ← db_call s; db_calls rest
  end.

(** The value a submitted form leaves for a name: the trimmed text, or
    nothing when the field is missing or blank. *)
Definition submitted (req : request) (n : str) : option str :=
  match form req !! n with
  | Some v => if truthy (strip v) then Some (strip v) else None
  | None => None
  end.

(** Rows the endpoint may touch: domain "external-providers" and a name of
    the catalog. *)
Definition in_catalog (r : setting) : Prop :=
  domain r = py "external-providers" ∧ name r ∈ EXTERNAL_PROVIDER_ENVVARS.

(** Writes that concern a row of the catalog. *)
Definition catalog_write (s : statement) : Prop :=
  match s with
  | InsertOrReplaceSetting r => in_catalog r
  | DeleteSetting _ d n =>
      d = py "external-providers" ∧ n ∈ EXTERNAL_PROVIDER_ENVVARS
  | _ => False
  end.

(** Whether one of the next [k] calls into the store raises. *)
Definition fault_within (k : nat) (w : world) : bool :=
  existsb (λ b : bool, b) (take k (faults w)).

(** The world once the store has carried out a call. *)
Definition after_call (s : statement) (w : world) : world :=
  World (match s with Commit => conn w | _ => disk w end)
        (run_statement s (conn w)) (tail (faults w)) (trace w ++ [s])
        (flashes w) (session w) (environ w).

(** The world once a call has raised. *)
Definition after_fault (w : world) : world :=
  World (disk w) (conn w) (tail (faults w)) (trace w) (flashes w)
        (session w) (environ w).

(** The world once the store has carried out a list of calls. *)
Definition after_calls (ss : list statement) (w : world) : world :=
  foldl (λ w s, after_call s w) w ss.

(** The statements of a list, run on a database. *)
Definition run_statements (ss : list statement) (d : database) : database :=
  foldl (λ d s, run_statement s d) d ss.

(** The statements the loop of [external_providers] sends for a form. *)
Definition batch (uid : Z) (req : request) (envvars : list str)
    : list statement :=
  map (envvar_statement uid req) envvars.

(** The rows a statement may remove or add. *)
Definition touches (s : statement) (r : setting) : Prop :=
  match s with
  | InsertOrReplaceSetting r0 =>
      r = r0 ∨ same_key (user_id r0) (domain r0) (name r0) r = true
  | DeleteSetting uid d n => same_key uid d n r = true
  | _ => False
  end.

(** The end of [external_providers]: read the settings, render the page. *)
Definition render_external_providers (g : request_globals) : M response :=
  u ← g_user_get g;
  settings ← get_settings (id u);
  mret (Rendered (py "settings/external_providers.html")
          (default ∅ (settings !! py "external-providers"))).

#[global] Instance in_catalog_dec r : Decision (in_catalog r).
Proof. unfold in_catalog. apply _. Defined.

(** The unique key of a row. *)
Definition key (r : setting) : Z * str * str := (user_id r, domain r, name r).

(** The uniqueness constraint over [(user_id, domain, name)]. *)
Definition unique_keys (t : list setting) : Prop := NoDup (key <$> t).

(** The rows a submission of [uid] may replace or remove, for the names the
    loop runs over. *)
Definition in_batch_scope (uid : Z) (names : list str) (r : setting) : Prop :=
  user_id r = uid ∧ domain r = py "external-providers" ∧ name r ∈ names.

#[global] Instance in_batch_scope_dec uid names r :
  Decision (in_batch_scope uid names r).
Proof. unfold in_batch_scope. apply _. Defined.

(** The rows a form leaves behind, in the order of the loop. *)
Definition new_rows (uid : Z) (req : request) (names : list str)
    : list setting :=
  omap (λ n, Setting uid (py "external-providers") n <$> submitted req n) names.

(** A text as [strip] leaves it: not empty, no white space at either end. *)
Definition trimmed (s : str) : Prop :=
  s ≠ []
  ∧ (∀ c, head s = Some c → isspace c = false)
  ∧ (∀ c, last s = Some c → isspace c = false).

(** A stand-in for the hashing of [werkzeug.security], to run the views on
    concrete requests. *)
Definition tagged_hash (pw : str) : str := py "plain$" ++ pw.
Definition tagged_check (hash pw : str) : bool :=
  bool_decide (hash = tagged_hash pw).

(** ** The credential store and the view [password] *)

Section Credentials.

(** [werkzeug.security]: outside the repository. *)
Variable generate_password_hash : str → str.
Variable check_password_hash : str → str → bool.

(** What [is_password_correct] answers on a given state of the store. *)
Definition verify (d : database) (uname candidate : str) : bool :=
  match select_user uname (user_table d) with
  | Some r => check_password_hash (row_password r) candidate
  | None => false
  end.

(** Modelled from the spec: [is_password_correct] of [backaind/auth.py] is
    not among the sources.  Section 4.1, [verify]: false if the username is
    unknown or the candidate does not match the stored hash. *)
Definition is_password_correct (uname candidate : str) : M bool :=
  _ ← db_call (SelectUser uname);
  d ← read_conn;
  mret (verify d uname candidate).

(** Modelled from the spec: [set_password] of [backaind/auth.py] is not
    among the sources.  Section 4.1: overwrites the stored hash; an unknown
    username is the error [UserNotFound]; no password policy is checked. *)
Definition set_password (uname new_password : str) : M unit :=
  d ← read_conn;
  match select_user uname (user_table d) with
  | None => raise UserNotFound
  | Some _ =>
      _ ← db_call (UpdatePassword uname (generate_password_hash new_password));
      db_call Commit
  end.

(** The view [password], below its decorators. *)
Definition password (req : request) (g : request_globals) : M response :=
  _ ← (if is_demo_user g then
         flash (py "You cannot change the password of the demo user.")
               (py "warning")
       else
         match method req with
         | POST =>
             current_password ← form_get req (py "current-password");
             new_password ← form_get req (py "new-password");
             new_password_confirmation ←
               form_get req (py "new-password-confirmation");
             if bool_decide (new_password ≠ new_password_confirmation) then
               flash (py "Password and confirmation do not match.")
                     (py "danger")
             else
               u ← g_user_get g;
               correct ← is_password_correct (username u) current_password;
               if negb correct then
                 flash (py "Incorrect current password.") (py "danger")
               else if (length new_password <? 10)%nat then
                 flash (py "Password must be at least 10 characters long.")
                       (py "danger")
               else
                 _ ← set_password (username u) new_password;
                 flash (py "Password changed successfully.") (py "success")
         | _ => mret ()
         end);
  mret (Rendered (py "settings/password.html") ∅).

End Credentials.

(** ** Strings *)

Example strip_value : strip (py "  value  ") = py "value".
Proof. reflexivity. Qed.

(** ** Grouping rows into the nested mapping *)

Lemma nested_lookup_setdefault_set acc r d n :
  nested_lookup (setdefault_set acc r) d n =
  if decide (domain r = d ∧ name r = n) then Some (value r)
  else nested_lookup acc d n.
Proof.
  unfold nested_lookup, setdefault_set.
  destruct (decide (domain r = d)) as [<-|Hd].
  - rewrite lookup_insert_eq. simpl.
    destruct (decide (name r = n)) as [<-|Hn].
    + rewrite lookup_insert_eq. rewrite decide_True; done.
    + rewrite lookup_insert_ne by done. rewrite decide_False by tauto.
      destruct (acc !! domain r) as [dm|]; simpl; [done|apply lookup_empty].
  - rewrite lookup_insert_ne by done. rewrite decide_False by tauto. done.
Qed.

Lemma group_rows_snoc rows r :
  group_rows (rows ++ [r]) = setdefault_set (group_rows rows) r.
Proof. unfold group_rows. apply foldl_snoc. Qed.

Lemma nested_lookup_group_rows rows d n :
  nested_lookup (group_rows rows) d n =
  value <$> last (filter (λ r, domain r = d ∧ name r = n) rows).
Proof.
  induction rows as [|r rows IH] using rev_ind.
  - done.
  - rewrite group_rows_snoc, nested_lookup_setdefault_set, filter_app.
    rewrite filter_cons, filter_nil.
    destruct (decide (domain r = d ∧ name r = n)).
    + by rewrite last_snoc.
    + by rewrite app_nil_r.
Qed.

(** ** Calls into the store *)

Lemma db_call_answers s w :
  faults w !! 0%nat ≠ Some true → db_call s w = (Ok (), after_call s w).
Proof.
  unfold db_call, after_call. destruct w as [dk c fs tr fl se en]; simpl.
  destruct fs as [|[] fs]; simpl; intros H; try done.
  all: by destruct s.
Qed.

Lemma db_call_fails s w :
  faults w !! 0%nat = Some true → db_call s w = (Raise DatabaseError, after_fault w).
Proof.
  unfold db_call, after_fault. destruct w as [dk c fs tr fl se en]; simpl.
  by destruct fs as [|[] fs].
Qed.

Lemma bind_db_call_answers {A} s (k : unit → M A) w :
  faults w !! 0%nat ≠ Some true →
  (db_call s ≫= k) w = k () (after_call s w).
Proof.
  intros H. unfold mbind, M_bind. by rewrite db_call_answers.
Qed.

Lemma bind_db_call_fails {A} s (k : unit → M A) w :
  faults w !! 0%nat = Some true →
  (db_call s ≫= k) w = (Raise DatabaseError, after_fault w).
Proof.
  intros H. unfold mbind, M_bind. by rewrite db_call_fails.
Qed.

Lemma fault_within_head k w :
  fault_within (S k) w = false → faults w !! 0%nat ≠ Some true.
Proof.
  unfold fault_within. destruct (faults w) as [|[] fs]; simpl; done.
Qed.

Lemma fault_within_after_call k s w :
  fault_within (S k) w = false → fault_within k (after_call s w) = false.
Proof.
  unfold fault_within; simpl. destruct (faults w) as [|[] fs]; simpl; try done.
  by rewrite take_nil.
Qed.

(** ** The two statements on the table *)

Lemma same_key_true uid d n r :
  same_key uid d n r = true ↔ user_id r = uid ∧ domain r = d ∧ name r = n.
Proof.
  unfold same_key. rewrite !andb_true_iff, !bool_decide_eq_true. tauto.
Qed.

Lemma same_key_false uid d n r :
  same_key uid d n r = false ↔ ¬ (user_id r = uid ∧ domain r = d ∧ name r = n).
Proof. rewrite <- same_key_true. by destruct (same_key uid d n r). Qed.

Lemma select_settings_insert_or_replace uid d n v t :
  select_settings uid (insert_or_replace (Setting uid d n v) t) =
  select_settings uid (delete_where uid d n t) ++ [Setting uid d n v].
Proof.
  unfold select_settings, insert_or_replace, delete_where; simpl.
  rewrite filter_app, filter_cons, filter_nil. by rewrite decide_True.
Qed.

Lemma delete_where_no_key uid d n t r :
  r ∈ delete_where uid d n t → same_key uid d n r = false.
Proof. unfold delete_where. rewrite list_elem_of_filter. tauto. Qed.

Lemma delete_where_absent uid d n t :
  (∀ r, r ∈ t → same_key uid d n r = false) → delete_where uid d n t = t.
Proof.
  intros H. unfold delete_where. induction t as [|r t IH]; [done|].
  rewrite filter_cons. rewrite decide_True by (apply H; left).
  f_equal. apply IH. intros r' Hr'. apply H. by right.
Qed.

Lemma filter_none {A} (P : A → Prop) `{∀ x, Decision (P x)} (l : list A) :
  (∀ x, x ∈ l → ¬ P x) → filter P l = [].
Proof.
  induction l as [|x l IH]; intros Hl; [done|].
  rewrite filter_cons, decide_False by (apply Hl; left).
  apply IH. intros y Hy. apply Hl. by right.
Qed.

Lemma no_key_after_delete uid d n t :
  nested_lookup (group_rows (select_settings uid (delete_where uid d n t))) d n
  = None.
Proof.
  rewrite nested_lookup_group_rows, filter_none; [done|].
  intros r Hr [Hd Hn]. unfold select_settings in Hr.
  apply list_elem_of_filter in Hr as [Hu Hr].
  apply delete_where_no_key, same_key_false in Hr. tauto.
Qed.

(** ** Upsert and clear of one key *)

(** C4. For every user, domain, name and value that is non-empty after
    trimming: when the store answers, the upsert followed by the commit and
    the read returns a mapping in which the domain maps to a mapping where
    the name maps to the trimmed value; a later request reads the same
    mapping; and if the user has no other row it is exactly
    [{d: {n: trimmed}}]. *)
Theorem upsert_then_get_settings (w : world) (uid : Z) (d n v : str) :
  truthy (strip v) = true →
  fault_within 3 w = false →
  ∃ m dm w',
    (_ ← upsert_or_clear uid d n (Some v);
     _ ← db_call Commit;
     get_settings uid) w = (Ok m, w')
    ∧ m !! d = Some dm ∧ dm !! n = Some (strip v)
    ∧ get_all (close_db w') uid = m
    ∧ (select_settings uid (delete_where uid d n (settings_table (conn w))) = []
       → m = {[ d := {[ n := strip v ]} ]}).
Proof.
  intros Hv Hf. unfold upsert_or_clear. rewrite Hv.
  set (s1 := InsertOrReplaceSetting (Setting uid d n (strip v))).
  rewrite bind_db_call_answers by eauto using fault_within_head.
  apply (fault_within_after_call _ s1) in Hf.
  rewrite bind_db_call_answers by eauto using fault_within_head.
  apply (fault_within_after_call _ Commit) in Hf.
  unfold get_settings.
  rewrite bind_db_call_answers by eauto using fault_within_head.
  subst s1.
  unfold mbind, M_bind, read_conn, mret, M_ret.
  cbn [after_call conn run_statement settings_table].
  rewrite select_settings_insert_or_replace, group_rows_snoc.
  eexists _, _, _. split; [reflexivity|].
  unfold setdefault_set; cbn [domain name value].
  split; [apply lookup_insert_eq|]. split; [apply lookup_insert_eq|].
  split.
  - unfold get_all, close_db.
    cbn [disk conn after_call run_statement settings_table].
    by rewrite select_settings_insert_or_replace, group_rows_snoc.
  - intros ->. done.
Qed.

(** C5. For every user, domain and name, a value that is empty after trimming
    deletes the row of that key: afterwards the table is the old one without
    the rows of the key, so nothing changed if there was none; whatever
    value the key had before, it is absent from what the request and later
    requests read. *)
Theorem clear_then_get_settings (w : world) (uid : Z) (d n v : str) :
  truthy (strip v) = false →
  fault_within 3 w = false →
  ∃ m w',
    (_ ← upsert_or_clear uid d n (Some v);
     _ ← db_call Commit;
     get_settings uid) w = (Ok m, w')
    ∧ settings_table (disk w') = delete_where uid d n (settings_table (conn w))
    ∧ (∀ r, r ∈ settings_table (disk w') → same_key uid d n r = false)
    ∧ ((∀ r, r ∈ settings_table (conn w) → same_key uid d n r = false) →
       disk w' = conn w)
    ∧ nested_lookup m d n = None
    ∧ nested_lookup (get_all (close_db w') uid) d n = None.
Proof.
  intros Hv Hf. unfold upsert_or_clear. rewrite Hv.
  rewrite bind_db_call_answers by eauto using fault_within_head.
  apply (fault_within_after_call _ (DeleteSetting uid d n)) in Hf.
  rewrite bind_db_call_answers by eauto using fault_within_head.
  apply (fault_within_after_call _ Commit) in Hf.
  unfold get_settings.
  rewrite bind_db_call_answers by eauto using fault_within_head.
  unfold mbind, M_bind, read_conn, mret, M_ret.
  eexists _, _. split; [reflexivity|].
  unfold get_all, close_db.
  cbn [disk conn after_call run_statement settings_table].
  split; [done|]. split; [apply delete_where_no_key|].
  split.
  - intros Habs. rewrite delete_where_absent by done. by destruct (conn w).
  - split; apply no_key_after_delete.
Qed.

(** ** Rows a statement leaves alone *)

Lemma run_statement_frame (P : setting → Prop) `{∀ r, Decision (P r)} s d :
  (∀ r, P r → ¬ touches s r) →
  filter P (settings_table (run_statement s d)) = filter P (settings_table d).
Proof.
  intros Hframe. destruct s as [r0|uid dom n| | | | |]; simpl; try done.
  - unfold insert_or_replace. rewrite filter_app, filter_cons, filter_nil.
    rewrite decide_False by (intros HP; apply (Hframe _ HP); by left).
    rewrite app_nil_r. apply list_filter_filter_l.
    intros r HP. apply not_true_is_false. intros Hk.
    apply (Hframe _ HP). by right.
  - unfold delete_where. apply list_filter_filter_l.
    intros r HP. apply not_true_is_false. intros Hk. by apply (Hframe _ HP).
Qed.

Lemma run_statements_frame (P : setting → Prop) `{∀ r, Decision (P r)} ss d :
  (∀ s r, s ∈ ss → P r → ¬ touches s r) →
  filter P (settings_table (run_statements ss d)) = filter P (settings_table d).
Proof.
  revert d. induction ss as [|s ss IH]; intros d Hframe; [done|].
  unfold run_statements; simpl. fold (run_statements ss (run_statement s d)).
  rewrite IH by (intros s' r Hs'; apply Hframe; by right).
  apply run_statement_frame. intros r. apply Hframe. by left.
Qed.

(** ** What one turn of the loop leaves for its name *)

Lemma touches_envvar_statement uid req envvar r :
  touches (envvar_statement uid req envvar) r →
  user_id r = uid ∧ domain r = py "external-providers" ∧ name r = envvar.
Proof.
  unfold envvar_statement.
  destruct (form req !! envvar) as [v|]; [destruct (truthy (strip v))|];
    simpl; rewrite ?same_key_true; intros H; try done.
  destruct H as [->|H]; done.
Qed.

Lemma lookup_key uid t d n :
  nested_lookup (group_rows (select_settings uid t)) d n =
  value <$> last (filter (λ r, (domain r = d ∧ name r = n) ∧ user_id r = uid) t).
Proof.
  rewrite nested_lookup_group_rows. unfold select_settings.
  by rewrite list_filter_filter.
Qed.

Lemma lookup_after_envvar_statement uid req n d :
  nested_lookup
    (group_rows (select_settings uid
       (settings_table (run_statement (envvar_statement uid req n) d))))
    (py "external-providers") n
  = submitted req n.
Proof.
  unfold envvar_statement, submitted.
  destruct (form req !! n) as [v|]; [destruct (truthy (strip v))|]; simpl.
  - rewrite select_settings_insert_or_replace, group_rows_snoc.
    rewrite nested_lookup_setdefault_set. by rewrite decide_True.
  - apply no_key_after_delete.
  - apply no_key_after_delete.
Qed.

Lemma lookup_after_batch uid req names d n :
  NoDup names → n ∈ names →
  nested_lookup
    (group_rows (select_settings uid
       (settings_table (run_statements (batch uid req names) d))))
    (py "external-providers") n
  = submitted req n.
Proof.
  intros Hnd. revert d. induction Hnd as [|n0 names Hn0 Hnd IH]; intros d Hn.
  - by apply not_elem_of_nil in Hn.
  - unfold batch, run_statements; simpl.
    fold (batch uid req names).
    fold (run_statements (batch uid req names)
            (run_statement (envvar_statement uid req n0) d)).
    apply elem_of_cons in Hn as [->|Hn]; [|by apply IH].
    rewrite lookup_key.
    rewrite run_statements_frame.
    + rewrite <- lookup_key. apply lookup_after_envvar_statement.
    + intros s r Hs [[_ Hname] _] Ht. unfold batch in Hs.
      apply list_elem_of_fmap in Hs as (n' & -> & Hn').
      apply touches_envvar_statement in Ht as (_ & _ & Hr).
      congruence.
Qed.

(** ** A list of calls into the store *)

Lemma after_calls_cons s ss w :
  after_calls (s :: ss) w = after_calls ss (after_call s w).
Proof. done. Qed.

Lemma conn_after_calls ss w :
  conn (after_calls ss w) = run_statements ss (conn w).
Proof.
  revert w. induction ss as [|s ss IH]; intros w; [done|].
  rewrite after_calls_cons, IH. done.
Qed.

Lemma trace_after_calls ss w :
  trace (after_calls ss w) = trace w ++ ss.
Proof.
  revert w. induction ss as [|s ss IH]; intros w.
  - by rewrite app_nil_r.
  - rewrite after_calls_cons, IH. simpl. by rewrite <- app_assoc.
Qed.

Lemma disk_after_calls ss w :
  Commit ∉ ss → disk (after_calls ss w) = disk w.
Proof.
  revert w. induction ss as [|s ss IH]; intros w Hc; [done|].
  rewrite after_calls_cons, IH by (intros ?; apply Hc; by right).
  destruct s; try done. exfalso. apply Hc. by left.
Qed.

Lemma db_calls_answers ss w :
  fault_within (length ss) w = false →
  db_calls ss w = (Ok (), after_calls ss w)
  ∧ fault_within 1 (after_calls ss w)
    = existsb (λ b : bool, b) (take 1 (drop (length ss) (faults w))).
Proof.
  revert w. induction ss as [|s ss IH]; intros w Hf.
  - done.
  - cbn [db_calls length].
    rewrite bind_db_call_answers by eauto using fault_within_head.
    apply (fault_within_after_call _ s) in Hf.
    rewrite after_calls_cons.
    destruct (IH _ Hf) as [-> ->]. split; [done|].
    simpl. destruct (faults w) as [|b fs]; simpl; [by rewrite drop_nil|done].
Qed.

Lemma db_calls_fails ss w :
  fault_within (length ss) w = true →
  ∃ k, (k < length ss)%nat ∧
    db_calls ss w = (Raise DatabaseError, after_fault (after_calls (take k ss) w)).
Proof.
  revert w. induction ss as [|s ss IH]; intros w Hf.
  - done.
  - cbn [db_calls length].
    destruct (decide (faults w !! 0%nat = Some true)) as [H0|H0].
    + exists 0%nat. split; [simpl; lia|]. by rewrite bind_db_call_fails.
    + rewrite bind_db_call_answers by done.
      destruct (IH (after_call s w)) as (k & Hk & ->).
      * unfold fault_within in *. simpl.
        destruct (faults w) as [|[] fs]; simpl in *; done.
      * exists (S k). split; [simpl; lia|]. done.
Qed.

Lemma save_envvars_db_calls g req u names w :
  g_user g = Some u →
  save_envvars g req names w = db_calls (batch (id u) req names) w.
Proof.
  intros Hu. revert w. induction names as [|n names IH]; intros w; [done|].
  cbn [save_envvars batch map db_calls].
  unfold g_user_get. rewrite Hu.
  change ((mret u ≫= λ u0, _ ← upsert_or_clear (id u0) (py "external-providers")
             n (form req !! n); save_envvars g req names) w)
    with ((_ ← upsert_or_clear (id u) (py "external-providers") n (form req !! n);
           save_envvars g req names) w).
  assert (upsert_or_clear (id u) (py "external-providers") n (form req !! n)
          = db_call (envvar_statement (id u) req n)) as ->.
  { unfold upsert_or_clear, envvar_statement.
    destruct (form req !! n) as [v|]; [destruct (truthy (strip v))|]; done. }
  unfold mbind, M_bind.
  destruct (db_call (envvar_statement (id u) req n) w) as [[[]|e] w1]; [|done].
  apply IH.
Qed.

Lemma Commit_not_in_batch uid req names : Commit ∉ batch uid req names.
Proof.
  unfold batch. intros (n & Hn & _)%list_elem_of_fmap.
  unfold envvar_statement in Hn.
  destruct (form req !! n) as [v|]; [destruct (truthy (strip v))|]; done.
Qed.

Lemma batch_catalog_write uid req names s :
  names ⊆ EXTERNAL_PROVIDER_ENVVARS →
  s ∈ batch uid req names → catalog_write s.
Proof.
  intros Hsub (n & -> & Hn)%list_elem_of_fmap. apply Hsub in Hn.
  unfold envvar_statement, catalog_write, in_catalog.
  destruct (form req !! n) as [v|]; [destruct (truthy (strip v))|]; done.
Qed.

Lemma NoDup_EXTERNAL_PROVIDER_ENVVARS : NoDup EXTERNAL_PROVIDER_ENVVARS.
Proof. apply (bool_decide_unpack _). vm_compute. exact I. Qed.

(** ** The view [external_providers], case by case *)

Lemma fault_within_S k w :
  fault_within (S k) w =
  fault_within k w || existsb (λ b : bool, b) (take 1 (drop k (faults w))).
Proof.
  unfold fault_within. generalize (faults w). induction k as [|k IH]; intros fs.
  - by destruct fs.
  - destruct fs as [|b fs]; [done|].
    change (take (S (S k)) (b :: fs)) with (b :: take (S k) fs).
    change (take (S k) (b :: fs)) with (b :: take k fs).
    cbn [existsb drop]. rewrite IH. by rewrite orb_assoc.
Qed.

(** The end of the view only reads. *)
Lemma render_external_providers_reads g w :
  let out := render_external_providers g w in
  disk (snd out) = disk w ∧ conn (snd out) = conn w
  ∧ flashes (snd out) = flashes w
  ∧ (trace (snd out) = trace w
     ∨ ∃ uid, trace (snd out) = trace w ++ [SelectSettings uid])
  ∧ ((∃ u, g_user g = Some u) → faults w !! 0%nat ≠ Some true →
     ∃ m, fst out = Ok (Rendered (py "settings/external_providers.html") m))
  ∧ ∀ loc, fst out ≠ Ok (Redirect loc).
Proof.
  unfold render_external_providers, g_user_get.
  destruct (g_user g) as [u|]; simpl.
  - change ((mret u ≫= λ u0, settings ← get_settings (id u0);
               mret (Rendered (py "settings/external_providers.html")
                       (default ∅ (settings !! py "external-providers")))) w)
      with ((settings ← get_settings (id u);
               mret (Rendered (py "settings/external_providers.html")
                       (default ∅ (settings !! py "external-providers")))) w).
    unfold get_settings.
    destruct (decide (faults w !! 0%nat = Some true)) as [H0|H0].
    + unfold mbind, M_bind. rewrite db_call_fails by done.
      simpl. repeat split; try done. by left.
    + unfold mbind, M_bind. rewrite db_call_answers by done.
      simpl. repeat split; try done.
      * right. by eexists.
      * intros _ _. by eexists.
  - repeat split; try done; [by left|]. intros [u Hu]. done.
Qed.

Lemma external_providers_post req g u w :
  g_user g = Some u → g_is_demo_user g = false → method req = POST →
  let bs := batch (id u) req EXTERNAL_PROVIDER_ENVVARS in
  let w1 := after_calls bs w in
  (fault_within (length bs) w = true ∧ ∃ k, (k < length bs)%nat ∧
     external_providers req g w =
     (Raise DatabaseError, after_fault (after_calls (take k bs) w)))
  ∨ (fault_within (length bs) w = false ∧ fault_within 1 w1 = true ∧
     external_providers req g w = (Raise DatabaseError, after_fault w1))
  ∨ (fault_within (length bs) w = false ∧ fault_within 1 w1 = false ∧
     external_providers req g w =
     render_external_providers g
       (snd (flash (py "Settings saved successfully.") (py "success")
               (after_call Commit w1)))).
Proof.
  intros Hu Hd Hm bs w1.
  unfold external_providers, is_demo_user. rewrite Hd, Hm.
  fold (render_external_providers g).
  unfold mbind, M_bind.
  rewrite (save_envvars_db_calls _ _ u) by done. fold bs.
  destruct (fault_within (length bs) w) eqn:Hf.
  - left. split; [done|].
    destruct (db_calls_fails bs w Hf) as (k & Hk & ->). eauto.
  - right. destruct (db_calls_answers bs w Hf) as [-> Hnext]. fold w1 in Hnext |- *.
    destruct (fault_within 1 w1) eqn:Hf1.
    + left. repeat split; try done. rewrite db_call_fails; [done|].
      unfold fault_within in Hf1. by destruct (faults w1) as [|[] fs].
    + right. repeat split; try done. rewrite db_call_answers; [done|].
      by eapply fault_within_head.
Qed.

(** ** The batch of a settings submission *)

Lemma trace_after_fault w : trace (after_fault w) = trace w.
Proof. done. Qed.

Lemma conn_after_fault w : conn (after_fault w) = conn w.
Proof. done. Qed.

Lemma saved_world w :
  let w' := snd (flash (py "Settings saved successfully.") (py "success")
                   (after_call Commit w)) in
  trace w' = trace w ++ [Commit] ∧ disk w' = conn w ∧ conn w' = conn w.
Proof. done. Qed.

Lemma disk_close_db w : disk (close_db w) = disk w.
Proof. done. Qed.

Lemma disk_after_fault w : disk (after_fault w) = disk w.
Proof. done. Qed.

Lemma get_all_disk w1 w2 uid : disk w1 = disk w2 → get_all w1 uid = get_all w2 uid.
Proof. unfold get_all. by intros ->. Qed.

(** The committed store after a submission of a real user: untouched when
    a statement of the batch or the commit raises, the batch applied to it
    otherwise. *)
Lemma external_providers_post_disk
    (req : request) (g : request_globals) (u : user_dict) (w : world) :
  g_user g = Some u → g_is_demo_user g = false → method req = POST →
  conn w = disk w →
  let out := login_required_allow_demo (external_providers req) g w in
  if fault_within (S (length EXTERNAL_PROVIDER_ENVVARS)) w
  then fst out = Raise DatabaseError ∧ disk (snd out) = disk w
  else disk (snd out)
       = run_statements (batch (id u) req EXTERNAL_PROVIDER_ENVVARS) (disk w).
Proof.
  intros Hu Hd Hm Hfresh out. subst out.
  unfold login_required_allow_demo. rewrite Hu.
  rewrite fault_within_S.
  set (bs := batch (id u) req EXTERNAL_PROVIDER_ENVVARS).
  assert (length bs = length EXTERNAL_PROVIDER_ENVVARS) as Hlen
    by apply length_fmap.
  rewrite <- Hlen.
  pose proof (Commit_not_in_batch (id u) req EXTERNAL_PROVIDER_ENVVARS) as Hnc.
  fold bs in Hnc.
  destruct (external_providers_post req g u w Hu Hd Hm)
    as [(Hf & k & Hk & ->)|[(Hf & Hf1 & ->)|(Hf & Hf1 & ->)]];
    fold bs in Hf; rewrite Hf.
  - split; [done|]. cbn [snd]. rewrite disk_after_fault.
    apply disk_after_calls. intros Hin. by apply subseteq_take in Hin.
  - fold bs in Hf1.
    destruct (db_calls_answers bs w Hf) as [_ Hnext]. rewrite Hnext in Hf1.
    rewrite Hf1. split; [done|]. cbn [snd]. rewrite disk_after_fault.
    by apply disk_after_calls.
  - fold bs in Hf1.
    destruct (db_calls_answers bs w Hf) as [_ Hnext]. rewrite Hnext in Hf1.
    rewrite Hf1.
    pose proof (saved_world (after_calls bs w)) as (_ & Hd1 & _).
    destruct (render_external_providers_reads g
      (snd (flash (py "Settings saved successfully.") (py "success")
              (after_call Commit (after_calls bs w))))) as (Hdisk & _).
    fold bs. rewrite Hdisk, Hd1, conn_after_calls, Hfresh. done.
Qed.

(** C1. A settings submission by an admitted real user is atomic.  If one of
    the 28 statements of the batch or the commit raises, the request fails
    and the committed store is what it was, so every later [get_settings]
    returns what it returned before; if none raises, the committed store is
    the old one with the whole batch applied, and each name of the catalog
    reads as the form left it. *)
Theorem external_providers_batch_atomic
    (req : request) (g : request_globals) (u : user_dict) (w : world) :
  g_user g = Some u → g_is_demo_user g = false → method req = POST →
  conn w = disk w →
  let out := login_required_allow_demo (external_providers req) g w in
  let w' := close_db (snd out) in
  let k := S (length EXTERNAL_PROVIDER_ENVVARS) in
  (fault_within k w = true →
     fst out = Raise DatabaseError ∧ disk w' = disk w
     ∧ ∀ uid, get_all w' uid = get_all w uid)
  ∧ (fault_within k w = false →
     disk w' = run_statements (batch (id u) req EXTERNAL_PROVIDER_ENVVARS) (disk w)
     ∧ ∀ n, n ∈ EXTERNAL_PROVIDER_ENVVARS →
         nested_lookup (get_all w' (id u)) (py "external-providers") n
         = submitted req n).
Proof.
  intros Hu Hd Hm Hfresh out w' k. subst w' k.
  pose proof (external_providers_post_disk req g u w Hu Hd Hm Hfresh) as Hdisk.
  fold out in Hdisk.
  split; intros Hf; rewrite Hf in Hdisk.
  - destruct Hdisk as [Hr Hdisk]. split; [done|].
    rewrite disk_close_db. split; [done|].
    intros uid. apply get_all_disk. by rewrite disk_close_db.
  - rewrite disk_close_db. split; [done|].
    intros n Hn. unfold get_all. rewrite disk_close_db, Hdisk.
    apply lookup_after_batch; [apply NoDup_EXTERNAL_PROVIDER_ENVVARS|done].
Qed.

(** C3, as stated, fails: a stored row whose name is in the catalog and is
    absent from the submitted form is deleted by the submission. *)
Lemma external_providers_clears_absent_name :
  let row := Setting 1 (py "external-providers") (py "OPENAI_API_KEY") (py "sk-1") in
  let w0 := World (Database [] [row]) (Database [] [row]) [] [] [] ∅ ∅ in
  let req := Request POST {[ py "COHERE_API_KEY" := py "co-2" ]} in
  let g := Globals (Some (UserDict 1 (py "test"))) false in
  let out := login_required_allow_demo (external_providers req) g w0 in
  form req !! name row = None
  ∧ settings_table (disk w0) = [row]
  ∧ settings_table (disk (close_db (snd out)))
    = [Setting 1 (py "external-providers") (py "COHERE_API_KEY") (py "co-2")].
Proof. vm_compute. done. Qed.

(** ** Rows the endpoint leaves alone *)

Lemma batch_frame (P : setting → Prop) `{∀ r, Decision (P r)} uid req names k d :
  (∀ r n, P r → n ∈ names →
     ¬ (user_id r = uid ∧ domain r = py "external-providers" ∧ name r = n)) →
  filter P (settings_table (run_statements (take k (batch uid req names)) d))
  = filter P (settings_table d).
Proof.
  intros HP. apply run_statements_frame. intros s r Hs Hr Ht.
  apply subseteq_take in Hs.
  apply list_elem_of_fmap in Hs as (n & -> & Hn).
  apply touches_envvar_statement in Ht. by eapply HP.
Qed.

Lemma no_row_of_key uid t d n :
  nested_lookup (group_rows (select_settings uid t)) d n = None →
  ∀ r, r ∈ t → same_key uid d n r = false.
Proof.
  rewrite lookup_key. intros Hnone r Hr. apply same_key_false. intros (Hu & Hd & Hn).
  destruct (filter _ t) as [|r0 l] eqn:Hfil.
  - eapply filter_nil_not_elem_of; [exact Hfil| |exact Hr]. done.
  - destruct (last_is_Some (r0 :: l)) as [_ [x Hx]]; [done|].
    by rewrite Hx in Hnone.
Qed.

(** C3, amended.  A settings submission by an admitted real user modifies
    only rows of that user in the domain "external-providers" whose name is
    in the catalog: every other row is left unchanged.  When the store
    carries the submission out, the upsert-or-clear is applied to every name
    of the catalog, a name absent from the form counting as blank: no row of
    the user is left for it. *)
Theorem external_providers_touches_catalog_only
    (req : request) (g : request_globals) (u : user_dict) (w : world) :
  g_user g = Some u → g_is_demo_user g = false → method req = POST →
  conn w = disk w →
  let out := login_required_allow_demo (external_providers req) g w in
  let w' := close_db (snd out) in
  filter (λ r, ¬ (user_id r = id u ∧ in_catalog r)) (settings_table (disk w'))
  = filter (λ r, ¬ (user_id r = id u ∧ in_catalog r)) (settings_table (disk w))
  ∧ (fault_within (S (length EXTERNAL_PROVIDER_ENVVARS)) w = false →
     ∀ n, n ∈ EXTERNAL_PROVIDER_ENVVARS →
       nested_lookup (get_all w' (id u)) (py "external-providers") n
       = submitted req n
       ∧ (form req !! n = None →
          ∀ r, r ∈ settings_table (disk w') →
            same_key (id u) (py "external-providers") n r = false)).
Proof.
  intros Hu Hd Hm Hfresh out w'. subst w'.
  pose proof (external_providers_post_disk req g u w Hu Hd Hm Hfresh) as Hdisk.
  fold out in Hdisk. rewrite disk_close_db.
  destruct (fault_within (S (length EXTERNAL_PROVIDER_ENVVARS)) w).
  - destruct Hdisk as [_ ->]. done.
  - rewrite Hdisk. split.
    + rewrite <- (take_ge (batch _ _ _)
                   (length (batch (id u) req EXTERNAL_PROVIDER_ENVVARS))) by done.
      apply batch_frame. intros r n Hr Hn (Hu' & Hd' & Hn'). apply Hr.
      split; [done|]. split; [done|]. by rewrite Hn'.
    + intros _ n Hn.
      assert (nested_lookup (get_all (close_db (snd out)) (id u))
                (py "external-providers") n = submitted req n) as Hlook.
      { unfold get_all. rewrite disk_close_db, Hdisk.
        apply lookup_after_batch; [apply NoDup_EXTERNAL_PROVIDER_ENVVARS|done]. }
      split; [done|].
      intros Hnone. apply no_row_of_key. rewrite <- Hdisk.
      unfold get_all in Hlook. rewrite disk_close_db in Hlook. rewrite Hlook.
      unfold submitted. by rewrite Hnone.
Qed.

Lemma catalog_frame uid req k d :
  filter (λ r, ¬ in_catalog r)
    (settings_table (run_statements (take k (batch uid req EXTERNAL_PROVIDER_ENVVARS)) d))
  = filter (λ r, ¬ in_catalog r) (settings_table d).
Proof.
  apply batch_frame. intros r n Hr Hn (_ & Hd & Hname). apply Hr.
  split; [done|]. by rewrite Hname.
Qed.

Lemma catalog_frame_all uid req d :
  filter (λ r, ¬ in_catalog r)
    (settings_table (run_statements (batch uid req EXTERNAL_PROVIDER_ENVVARS) d))
  = filter (λ r, ¬ in_catalog r) (settings_table d).
Proof.
  pose proof (catalog_frame uid req
    (length (batch uid req EXTERNAL_PROVIDER_ENVVARS)) d) as H.
  by rewrite take_ge in H.
Qed.

Lemma batch_writes_in_catalog uid req k s :
  s ∈ take k (batch uid req EXTERNAL_PROVIDER_ENVVARS) → catalog_write s.
Proof.
  intros Hs%subseteq_take. by eapply batch_catalog_write.
Qed.

Lemma nothing_added (tr : list statement) (Q : statement → Prop) :
  ∃ added, tr = tr ++ added ∧ ∀ s, s ∈ added → is_write s = true → Q s.
Proof.
  exists []. split; [by rewrite app_nil_r|].
  intros s Hs. by apply not_elem_of_nil in Hs.
Qed.

(** The end of the view adds no write and leaves the rows alone. *)
Lemma render_external_providers_effect g w0 :
  let out := render_external_providers g w0 in
  (∃ added, trace (snd out) = trace w0 ++ added
            ∧ ∀ s, s ∈ added → is_write s = true → catalog_write s)
  ∧ disk (snd out) = disk w0 ∧ conn (snd out) = conn w0.
Proof.
  intros out.
  destruct (render_external_providers_reads g w0) as (Hd & Hc & _ & Ht & _).
  fold out in Hd, Hc, Ht. split; [|done].
  destruct Ht as [->|[uid ->]].
  - apply nothing_added.
  - eexists. split; [done|]. intros s ->%list_elem_of_singleton. done.
Qed.

(** What a submission of a real user does to the trace and to the rows
    outside the catalog, for the statements [bs] of its batch. *)
Lemma post_stays_in_catalog (out : result response * world) (w : world)
    (uid : Z) (req : request) (g : request_globals) :
  let bs := batch uid req EXTERNAL_PROVIDER_ENVVARS in
  conn w = disk w →
  (∃ k, out = (Raise DatabaseError, after_fault (after_calls (take k bs) w)))
  ∨ out = render_external_providers g
            (snd (flash (py "Settings saved successfully.") (py "success")
                    (after_call Commit (after_calls bs w)))) →
  (∃ added, trace (snd out) = trace w ++ added
            ∧ ∀ s, s ∈ added → is_write s = true → catalog_write s)
  ∧ filter (λ r, ¬ in_catalog r) (settings_table (disk (snd out)))
    = filter (λ r, ¬ in_catalog r) (settings_table (disk w))
  ∧ filter (λ r, ¬ in_catalog r) (settings_table (conn (snd out)))
    = filter (λ r, ¬ in_catalog r) (settings_table (conn w)).
Proof.
  intros bs Hfresh [[k ->]| ->].
  - assert (snd (Raise DatabaseError : result response,
                 after_fault (after_calls (take k bs) w))
            = after_fault (after_calls (take k bs) w)) as -> by done.
    rewrite trace_after_fault, conn_after_fault, disk_after_fault.
    rewrite trace_after_calls, conn_after_calls, disk_after_calls.
    + split; [|split; [done|apply catalog_frame]].
      eexists. split; [done|]. intros s Hs _. by eapply batch_writes_in_catalog.
    + intros Hc%subseteq_take. by eapply Commit_not_in_batch.
  - pose proof (saved_world (after_calls bs w)) as (Ht1 & Hd1 & Hc1).
    destruct (render_external_providers_effect g
                (snd (flash (py "Settings saved successfully.") (py "success")
                        (after_call Commit (after_calls bs w)))))
      as ((added & Ht & Hadd) & Hd & Hc).
    rewrite Ht, Hd, Hc, Ht1, Hd1, Hc1.
    rewrite trace_after_calls, conn_after_calls.
    split; [|split; [rewrite Hfresh at 1|]; apply catalog_frame_all].
    exists (bs ++ [Commit] ++ added). split; [by rewrite <- !app_assoc|].
    intros s [Hs|[Hs|Hs]%elem_of_app]%elem_of_app Hw.
    + by eapply batch_catalog_write.
    + apply list_elem_of_singleton in Hs as ->. done.
    + by apply Hadd.
Qed.

(** C10. Whatever the request, every write the endpoint sends to the store
    is an insert or a delete of a row with domain "external-providers" and a
    name of the catalog; a form field outside the catalog causes no
    statement; and the rows in other domains or with unrecognized names are
    the same afterwards, in the committed store and in the view of the
    connection. *)
Theorem external_providers_stays_in_catalog
    (req : request) (g : request_globals) (w : world) :
  conn w = disk w →
  let out := login_required_allow_demo (external_providers req) g w in
  (∃ added, trace (snd out) = trace w ++ added
            ∧ ∀ s, s ∈ added → is_write s = true → catalog_write s)
  ∧ filter (λ r, ¬ in_catalog r) (settings_table (disk (snd out)))
    = filter (λ r, ¬ in_catalog r) (settings_table (disk w))
  ∧ filter (λ r, ¬ in_catalog r) (settings_table (conn (snd out)))
    = filter (λ r, ¬ in_catalog r) (settings_table (conn w)).
Proof.
  intros Hfresh out. subst out. unfold login_required_allow_demo.
  destruct (g_user g) as [u|] eqn:Hu.
  2:{ split; [|done]. apply nothing_added. }
  destruct (g_is_demo_user g) eqn:Hd.
  { unfold external_providers, is_demo_user. rewrite Hd.
    fold (render_external_providers g). unfold mbind, M_bind. cbn [flash].
    match goal with |- context [render_external_providers g ?w0] =>
      destruct (render_external_providers_effect g w0) as (Ht & Hdk & Hc) end.
    rewrite Hdk, Hc. split; [|done].
    destruct Ht as (added & -> & Hadd). eauto. }
  destruct (method req) eqn:Hm.
  1,2: unfold external_providers, is_demo_user; rewrite Hd, Hm;
    fold (render_external_providers g); unfold mbind, M_bind;
    cbn [mret M_ret];
    destruct (render_external_providers_effect g w) as (Ht & Hdk & Hc);
    by rewrite Hdk, Hc.
  apply (post_stays_in_catalog _ w (id u) req g Hfresh).
  destruct (external_providers_post req g u w Hu Hd Hm)
    as [(_ & k & _ & ->)|[(_ & _ & ->)|(_ & _ & ->)]].
  - left. by exists k.
  - left. exists (length (batch (id u) req EXTERNAL_PROVIDER_ENVVARS)).
    by rewrite take_ge.
  - by right.
Qed.

(** ** The demo identity and the two views *)

(** C2. When the resolved identity is the demo identity, a request the
    permissive gate admits changes nothing in the store through either view:
    [password] sends no statement at all and [external_providers] sends no
    write; both flash a warning, and neither answers with the redirect to
    the sign-in page.  The password page is rendered; the settings page is
    rendered when the store answers the read. *)
Theorem demo_user_writes_nothing
    (generate_password_hash : str → str) (check_password_hash : str → str → bool)
    (req : request) (g : request_globals) (u : user_dict) (w : world) :
  g_user g = Some u → g_is_demo_user g = true →
  let out_p :=
    login_required_allow_demo
      (password generate_password_hash check_password_hash req) g w in
  let out_e := login_required_allow_demo (external_providers req) g w in
  (fst out_p = Ok (Rendered (py "settings/password.html") ∅)
   ∧ snd out_p
     = snd (flash (py "You cannot change the password of the demo user.")
              (py "warning") w))
  ∧ (flashes (snd out_e)
     = flashes w
       ++ [(py "You cannot change the external providers settings of the demo user.",
            py "warning")]
     ∧ disk (snd out_e) = disk w ∧ conn (snd out_e) = conn w
     ∧ filter (λ s, is_write s = true) (trace (snd out_e))
       = filter (λ s, is_write s = true) (trace w)
     ∧ (faults w !! 0%nat ≠ Some true →
        ∃ m, fst out_e = Ok (Rendered (py "settings/external_providers.html") m)))
  ∧ fst out_p ≠ Ok redirect_to_login
  ∧ fst out_e ≠ Ok redirect_to_login.
Proof.
  intros Hu Hd out_p out_e. subst out_p out_e.
  unfold login_required_allow_demo. rewrite Hu.
  unfold password, external_providers, is_demo_user. rewrite Hd.
  fold (render_external_providers g).
  unfold mbind, M_bind. cbn [flash mret M_ret fst snd].
  match goal with |- context [render_external_providers g ?w0] =>
    pose proof (render_external_providers_reads g w0)
      as (Hdisk & Hconn & Hfl & Htr & Hok & Hnr) end.
  cbn [flash fst snd] in *.
  split; [done|]. split; [|split; [done|apply Hnr]].
  rewrite Hfl, Hdisk, Hconn. cbn [flashes disk conn].
  repeat split; try done.
  - destruct Htr as [->|[uid ->]]; cbn [trace]; [done|].
    by rewrite filter_app, filter_cons, filter_nil, decide_False, app_nil_r.
  - intros Hf. apply Hok; eauto.
Qed.

(** ** The password change *)

(** C6. A password change by an admitted real user whose new password is
    shorter than 10 characters, or differs from its confirmation, or whose
    current password does not verify, is rejected before any write:
    no statement but the read of the user row reaches the store, so
    [set_password] was not called, the store is unchanged and every
    password verifies exactly as before.  The answer is the page with a
    "danger" message, unless the read itself raised. *)
Theorem password_rejected_before_write
    (generate_password_hash : str → str) (check_password_hash : str → str → bool)
    (req : request) (g : request_globals) (u : user_dict) (w : world)
    (current new confirmation : str) :
  g_user g = Some u → g_is_demo_user g = false → method req = POST →
  form req !! py "current-password" = Some current →
  form req !! py "new-password" = Some new →
  form req !! py "new-password-confirmation" = Some confirmation →
  (length new < 10)%nat ∨ new ≠ confirmation
    ∨ verify check_password_hash (conn w) (username u) current = false →
  let out :=
    login_required_allow_demo
      (password generate_password_hash check_password_hash req) g w in
  disk (snd out) = disk w ∧ conn (snd out) = conn w
  ∧ (trace (snd out) = trace w
     ∨ trace (snd out) = trace w ++ [SelectUser (username u)])
  ∧ (∀ uname candidate,
       verify check_password_hash (disk (snd out)) uname candidate
       = verify check_password_hash (disk w) uname candidate)
  ∧ (fst out = Raise DatabaseError
     ∨ fst out = Ok (Rendered (py "settings/password.html") ∅)
       ∧ ∃ message, flashes (snd out) = flashes w ++ [(message, py "danger")]).
Proof.
  intros Hu Hd Hm Hcur Hnew Hconf Hbad out. subst out.
  unfold login_required_allow_demo. rewrite Hu.
  unfold password, is_demo_user, form_get, g_user_get.
  rewrite Hd, Hm, Hcur, Hnew, Hconf, Hu.
  unfold mbind, M_bind. cbn [mret M_ret].
  case_bool_decide as Hneq.
  { cbn [flash fst snd disk conn trace flashes].
    repeat split; try done; [by left|]. right. split; [done|]. by eexists. }
  unfold is_password_correct, mbind, M_bind, read_conn.
  destruct (decide (faults w !! 0%nat = Some true)) as [H0|H0].
  { rewrite db_call_fails by done. cbn [fst snd after_fault disk conn trace].
    repeat split; try done; by left. }
  rewrite db_call_answers by done.
  cbn [mret M_ret after_call conn run_statement].
  destruct (verify check_password_hash (conn w) (username u) current) eqn:Hv; cbn [negb].
  2:{ cbn [flash fst snd disk conn trace flashes].
      repeat split; try done; [by right|]. right. split; [done|]. by eexists. }
  destruct Hbad as [Hlen|[Hne|Hfalse]]; [|by destruct Hneq|done].
  apply Nat.ltb_lt in Hlen. rewrite Hlen.
  cbn [flash fst snd disk conn trace flashes].
  repeat split; try done; [by right|]. right. split; [done|]. by eexists.
Qed.

(** ** The two gates *)

(** C7. The strict gate runs the wrapped view exactly when an identity is
    present and is not the demo identity; the permissive gate runs it
    exactly when an identity is present.  A rejected request is answered
    with the redirect to the sign-in page and the world is left as it was:
    the view has run no effect. *)
Theorem gates_admit_or_redirect
    (view : request_globals → M response) (g : request_globals) (w : world) :
  (login_required view g w =
     if bool_decide (is_Some (g_user g)) && negb (g_is_demo_user g)
     then view g w else (Ok (Redirect (py "/auth/login")), w))
  ∧ (login_required_allow_demo view g w =
     if bool_decide (is_Some (g_user g))
     then view g w else (Ok (Redirect (py "/auth/login")), w)).
Proof.
  unfold login_required, login_required_allow_demo.
  destruct (g_user g) as [u|], (g_is_demo_user g); done.
Qed.

(** The gates, as modelled, pass the tests of the repository. *)
Example gate_tests_pass :
  test_login_required_redirects_if_not_logged_in
    load_logged_in_user login_required test_world = true
  ∧ test_login_required_declines_demo
      load_logged_in_user login_required test_world = true
  ∧ test_login_required_accepts_user
      load_logged_in_user login_required test_world = true
  ∧ test_login_required_redirects_if_not_logged_in
      load_logged_in_user login_required_allow_demo test_world = true
  ∧ test_login_required_allow_demo_accepts_demo
      load_logged_in_user login_required_allow_demo test_world = true
  ∧ test_login_required_accepts_user
      load_logged_in_user login_required_allow_demo test_world = true.
Proof. vm_compute. done. Qed.

(** ** The session resolver *)

Example test_demo_user_passes :
  test_demo_user load_logged_in_user test_world = true.
Proof. vm_compute. done. Qed.

(** The resolver read by the letter of section 4.2 fails the repository's
    test: the test reads the sentinel back from the session. *)
Example test_demo_user_by_the_letter_fails :
  test_demo_user load_logged_in_user_by_the_letter test_world = false.
Proof. vm_compute. done. Qed.

(** Whatever the resolver, if it passes [test_demo_user] then the request
    served in demo mode without a token has left the sentinel in the
    session. *)
Lemma test_demo_user_reads_sentinel (resolve : M request_globals) (w0 : world) :
  test_demo_user resolve w0 = true →
  session (snd (client_get resolve
                  (enable_demo_mode (snd (client_get resolve w0)))))
    !! py "user_id" = Some (-1).
Proof.
  unfold test_demo_user.
  destruct (client_get resolve w0) as [r1 w1]; cbn [snd].
  destruct (client_get resolve (enable_demo_mode w1)) as [r2 w2]; cbn [snd].
  destruct (client_get resolve (disable_demo_mode w2)) as [r3 w3].
  unfold sees_demo. rewrite !andb_true_iff, !bool_decide_eq_true.
  tauto.
Qed.

Lemma demo_mode_enabled_enable w : demo_mode_enabled (enable_demo_mode w) = true.
Proof.
  unfold demo_mode_enabled, enable_demo_mode; cbn [environ set_environ].
  by rewrite lookup_insert_eq.
Qed.

Lemma demo_mode_enabled_disable w : demo_mode_enabled (disable_demo_mode w) = false.
Proof.
  unfold demo_mode_enabled, disable_demo_mode; cbn [environ set_environ].
  by rewrite lookup_delete_eq.
Qed.

(** C8, as stated, fails: a request without a token served in demo mode
    leaves the sentinel id in the transport session, and no resolver that
    passes [test_demo_user] could leave the session without it. *)
Lemma demo_request_writes_sentinel_to_session :
  let w0 := enable_demo_mode test_world in
  session w0 !! py "user_id" = None
  ∧ demo_mode_enabled w0 = true
  ∧ session (snd (load_logged_in_user w0)) !! py "user_id" = Some (-1)
  ∧ ¬ ∃ resolve : M request_globals,
        test_demo_user resolve test_world = true
        ∧ session (snd (client_get resolve
                          (enable_demo_mode (snd (client_get resolve test_world)))))
            !! py "user_id" = None.
Proof.
  split; [reflexivity|]. split; [reflexivity|]. split; [reflexivity|].
  intros (resolve & Htest & Hnone).
  apply test_demo_user_reads_sentinel in Htest. congruence.
Qed.

(** C8, amended.  For a request without a session token while demo mode is
    enabled, the resolver gives the demo identity, marks the request as demo,
    sends nothing to the store (the demo identity is neither looked up nor
    stored in the user table), and records the sentinel id under [user_id]
    in the transport session. *)
Theorem demo_identity_recorded_in_session_only (w : world) :
  session w !! py "user_id" = None →
  demo_mode_enabled w = true →
  let out := load_logged_in_user w in
  fst out = Ok (Globals (Some demo_user) true)
  ∧ disk (snd out) = disk w ∧ conn (snd out) = conn w
  ∧ trace (snd out) = trace w
  ∧ session (snd out) = <[py "user_id" := -1]> (session w).
Proof.
  intros Hs Hdemo. unfold load_logged_in_user. by rewrite Hs, Hdemo.
Qed.

(** C9. For a request without a session token the outcome follows the value
    the demo switch has when the request is served: off gives no identity,
    not demo, and the world untouched; on gives the demo identity, demo, and
    nothing sent to the store.  Switching it on or off before a request
    gives that request the matching outcome, whatever it was before, also
    for the client whose previous request was served under the other
    setting. *)
Theorem resolution_follows_demo_switch (w : world) :
  session w !! py "user_id" = None →
  let nobody := Ok (Globals None false) in
  let demo := Ok (Globals (Some demo_user) true) in
  (demo_mode_enabled w = false →
     load_logged_in_user w = (nobody, w))
  ∧ (demo_mode_enabled w = true →
     fst (load_logged_in_user w) = demo
     ∧ disk (snd (load_logged_in_user w)) = disk w
     ∧ conn (snd (load_logged_in_user w)) = conn w
     ∧ trace (snd (load_logged_in_user w)) = trace w)
  ∧ fst (load_logged_in_user (enable_demo_mode w)) = demo
  ∧ fst (load_logged_in_user (disable_demo_mode w)) = nobody
  ∧ fst (client_get load_logged_in_user
           (disable_demo_mode
              (snd (client_get load_logged_in_user (enable_demo_mode w)))))
    = nobody
  ∧ fst (client_get load_logged_in_user
           (enable_demo_mode
              (snd (client_get load_logged_in_user (disable_demo_mode w)))))
    = demo.
Proof.
  intros Hs nobody demo. subst nobody demo.
  assert (∀ w1, session w1 !! py "user_id" = None →
            load_logged_in_user (enable_demo_mode w1)
            = (Ok (Globals (Some demo_user) true),
               set_session (<[py "user_id" := -1]> (session w1))
                 (enable_demo_mode w1))) as Hon.
  { intros w1 H1. unfold load_logged_in_user.
    rewrite demo_mode_enabled_enable. cbn [session enable_demo_mode set_environ].
    by rewrite H1. }
  assert (∀ w1, session w1 !! py "user_id" = None →
            load_logged_in_user (disable_demo_mode w1)
            = (Ok (Globals None false), disable_demo_mode w1)) as Hoff.
  { intros w1 H1. unfold load_logged_in_user.
    rewrite demo_mode_enabled_disable. cbn [session disable_demo_mode set_environ].
    by rewrite H1. }
  split; [|split; [|split; [|split; [|split]]]].
  - intros Hoffw. unfold load_logged_in_user. by rewrite Hs, Hoffw.
  - intros Honw. unfold load_logged_in_user. by rewrite Hs, Honw.
  - by rewrite Hon.
  - by rewrite Hoff.
  - unfold client_get. rewrite (Hon w Hs). cbn [snd].
    unfold load_logged_in_user at 1. rewrite demo_mode_enabled_disable.
    cbn [session disable_demo_mode close_db set_session set_environ].
    rewrite lookup_insert_eq. done.
  - unfold client_get. rewrite (Hoff w Hs). cbn [snd].
    rewrite Hon; [done|]. done.
Qed.

(** ** The statements on concrete requests *)

Lemma demo_user_writes_nothing_witness :
  let req := Request POST {[ py "OPENAI_API_KEY" := py "sk-2" ]} in
  let g := Globals (Some demo_user) true in
  let out_p :=
    login_required_allow_demo (password tagged_hash tagged_check req) g test_world in
  let out_e :=
    login_required_allow_demo (external_providers req) g test_world in
  fst out_p = Ok (Rendered (py "settings/password.html") ∅)
  ∧ disk (snd out_e) = disk test_world
  ∧ fst out_p ≠ Ok redirect_to_login
  ∧ fst out_e ≠ Ok redirect_to_login.
Proof.
  intros req g out_p out_e.
  destruct (demo_user_writes_nothing tagged_hash tagged_check req g demo_user
              test_world eq_refl eq_refl)
    as ((Hp & _) & (_ & He & _) & Hnp & Hne).
  done.
Defined.

Lemma password_rejected_before_write_witness :
  let row := UserRow 1 (py "test") (tagged_hash (py "test")) in
  let w0 := World (Database [row] []) (Database [row] []) [] [] [] ∅ ∅ in
  let req := Request POST
    (<[py "current-password" := py "test"]>
       (<[py "new-password" := py "short"]>
          (<[py "new-password-confirmation" := py "short"]> ∅))) in
  let g := Globals (Some (UserDict 1 (py "test"))) false in
  let out :=
    login_required_allow_demo (password tagged_hash tagged_check req) g w0 in
  (length (py "short") < 10)%nat
  ∧ verify tagged_check (disk w0) (py "test") (py "test") = true
  ∧ disk (snd out) = disk w0
  ∧ verify tagged_check (disk (snd out)) (py "test") (py "test") = true.
Proof.
  intros row w0 req g out.
  assert ((length (py "short") < 10)%nat) as Hlen by (vm_compute; lia).
  destruct (password_rejected_before_write tagged_hash tagged_check req g
              (UserDict 1 (py "test")) w0 (py "test") (py "short") (py "short")
              eq_refl eq_refl eq_refl eq_refl eq_refl eq_refl (or_introl Hlen))
    as (Hdisk & _ & _ & Hver & _).
  split; [exact Hlen|]. split; [reflexivity|]. split; [exact Hdisk|].
  fold out in Hver. rewrite Hver. reflexivity.
Defined.

Lemma upsert_then_get_settings_witness :
  let w0 := World (Database [] []) (Database [] []) [] [] [] ∅ ∅ in
  truthy (strip (py "  value  ")) = true
  ∧ fault_within 3 w0 = false
  ∧ ∃ w',
      (_ ← upsert_or_clear 1 (py "d") (py "n") (Some (py "  value  "));
       _ ← db_call Commit;
       get_settings 1) w0
      = (Ok {[ py "d" := {[ py "n" := py "value" ]} ]}, w').
Proof.
  intros w0. split; [reflexivity|]. split; [reflexivity|].
  destruct (upsert_then_get_settings w0 1 (py "d") (py "n") (py "  value  ")
              eq_refl eq_refl)
    as (m & dm & w' & Hrun & _ & _ & _ & Hm).
  exists w'. rewrite Hrun. f_equal. f_equal. by apply Hm.
Defined.

Lemma clear_then_get_settings_witness :
  let row := Setting 1 (py "d") (py "n") (py "value") in
  let w0 := World (Database [] [row]) (Database [] [row]) [] [] [] ∅ ∅ in
  truthy (strip (py "")) = false
  ∧ fault_within 3 w0 = false
  ∧ get_all w0 1 = {[ py "d" := {[ py "n" := py "value" ]} ]}
  ∧ ∃ m w',
      (_ ← upsert_or_clear 1 (py "d") (py "n") (Some (py ""));
       _ ← db_call Commit;
       get_settings 1) w0 = (Ok m, w')
      ∧ nested_lookup m (py "d") (py "n") = None.
Proof.
  intros row w0. split; [reflexivity|]. split; [reflexivity|].
  split; [reflexivity|].
  destruct (clear_then_get_settings w0 1 (py "d") (py "n") (py "")
              eq_refl eq_refl)
    as (m & w' & Hrun & _ & _ & _ & Hm & _).
  by exists m, w'.
Defined.

Lemma external_providers_batch_atomic_witness :
  let row := Setting 1 (py "external-providers") (py "OPENAI_API_KEY") (py "sk-1") in
  let w0 := World (Database [] [row]) (Database [] [row])
                  [false; false; true] [] [] ∅ ∅ in
  let req := Request POST {[ py "AI21_API_KEY" := py " a " ]} in
  let g := Globals (Some (UserDict 1 (py "test"))) false in
  let out := login_required_allow_demo (external_providers req) g w0 in
  fst out = Raise DatabaseError
  ∧ disk (close_db (snd out)) = disk w0
  ∧ ∀ uid, get_all (close_db (snd out)) uid = get_all w0 uid.
Proof.
  intros row w0 req g out.
  apply (external_providers_batch_atomic req g (UserDict 1 (py "test")) w0
           eq_refl eq_refl eq_refl eq_refl).
  reflexivity.
Defined.

Lemma external_providers_touches_catalog_only_witness :
  let row := Setting 1 (py "external-providers") (py "OPENAI_API_KEY") (py "sk-1") in
  let other := Setting 1 (py "appearance") (py "OPENAI_API_KEY") (py "dark") in
  let w0 := World (Database [] [row; other]) (Database [] [row; other])
                  [] [] [] ∅ ∅ in
  let req := Request POST {[ py "COHERE_API_KEY" := py "co-2" ]} in
  let g := Globals (Some (UserDict 1 (py "test"))) false in
  let out := login_required_allow_demo (external_providers req) g w0 in
  filter (λ r, ¬ (user_id r = 1 ∧ in_catalog r))
    (settings_table (disk (close_db (snd out))))
  = filter (λ r, ¬ (user_id r = 1 ∧ in_catalog r)) (settings_table (disk w0)).
Proof.
  intros row other w0 req g out.
  apply (external_providers_touches_catalog_only req g (UserDict 1 (py "test")) w0
           eq_refl eq_refl eq_refl eq_refl).
Defined.

Lemma external_providers_stays_in_catalog_witness :
  let kept := Setting 1 (py "appearance") (py "THEME") (py "dark") in
  let row := Setting 1 (py "external-providers") (py "OPENAI_API_KEY") (py "sk-1") in
  let w0 := World (Database [] [kept; row]) (Database [] [kept; row])
                  [] [] [] ∅ ∅ in
  let req := Request POST {[ py "THEME" := py "light" ]} in
  let g := Globals (Some (UserDict 1 (py "test"))) false in
  let out := login_required_allow_demo (external_providers req) g w0 in
  conn w0 = disk w0
  ∧ filter (λ r, ¬ in_catalog r) (settings_table (disk (snd out)))
    = filter (λ r, ¬ in_catalog r) (settings_table (disk w0)).
Proof.
  intros kept row w0 req g out. split; [reflexivity|].
  pose proof (external_providers_stays_in_catalog req g w0 eq_refl) as H.
  cbv zeta in H. destruct H as (_ & H & _). exact H.
Defined.

Lemma demo_identity_recorded_in_session_only_witness :
  let w0 := enable_demo_mode test_world in
  let out := load_logged_in_user w0 in
  fst out = Ok (Globals (Some demo_user) true)
  ∧ disk (snd out) = disk w0 ∧ conn (snd out) = conn w0
  ∧ trace (snd out) = trace w0
  ∧ session (snd out) = <[py "user_id" := -1]> (session w0).
Proof.
  exact (demo_identity_recorded_in_session_only (enable_demo_mode test_world)
           eq_refl eq_refl).
Defined.

Lemma resolution_follows_demo_switch_witness :
  load_logged_in_user test_world = (Ok (Globals None false), test_world)
  ∧ fst (load_logged_in_user (enable_demo_mode test_world))
    = Ok (Globals (Some demo_user) true).
Proof.
  destruct (resolution_follows_demo_switch test_world eq_refl)
    as (Hoff & _ & Hon & _).
  split; [by apply Hoff|exact Hon].
Defined.

(** * Further properties of [backaind/settings.py] *)

(** ** [get_settings] as a projection of the table *)

Lemma get_settings_answers uid w :
  faults w !! 0%nat ≠ Some true →
  get_settings uid w
  = (Ok (group_rows (select_settings uid (settings_table (conn w)))),
     after_call (SelectSettings uid) w).
Proof.
  intros H0. unfold get_settings, mbind, M_bind. by rewrite db_call_answers.
Qed.

Lemma unique_keys_inj t r r' :
  unique_keys t → r ∈ t → r' ∈ t → key r = key r' → value r = value r'.
Proof.
  unfold unique_keys. induction t as [|x t IH]; intros Hnd Hr Hr' Hk.
  - by apply not_elem_of_nil in Hr.
  - rewrite fmap_cons in Hnd. apply NoDup_cons in Hnd as [Hx Hnd].
    apply elem_of_cons in Hr as [->|Hr]; apply elem_of_cons in Hr' as [->|Hr'].
    + done.
    + exfalso. apply Hx. rewrite Hk. by apply list_elem_of_fmap_2.
    + exfalso. apply Hx. rewrite <- Hk. by apply list_elem_of_fmap_2.
    + by apply IH.
Qed.

(** X1. [get_settings] reads the table back.  When the store answers, an entry
    [d -> n -> v] of the returned mapping is a row [(uid, d, n, v)] of the
    table; and when the keys of the table are unique, every row of the user
    is an entry of the mapping. *)
Theorem get_settings_reads_rows (uid : Z) (w : world) :
  faults w !! 0%nat ≠ Some true →
  ∃ m, fst (get_settings uid w) = Ok m
       ∧ (∀ d n v, nested_lookup m d n = Some v →
            Setting uid d n v ∈ settings_table (conn w))
       ∧ (unique_keys (settings_table (conn w)) →
          ∀ d n v, Setting uid d n v ∈ settings_table (conn w) →
            nested_lookup m d n = Some v).
Proof.
  intros H0. rewrite get_settings_answers by done.
  eexists. split; [done|]. split.
  - intros d n v. rewrite lookup_key.
    destruct (last _) as [r|] eqn:Hlast; [|done].
    intros [= <-]. apply last_Some_elem_of in Hlast.
    apply list_elem_of_filter in Hlast as [[[<- <-] <-] Hr]. by destruct r.
  - intros Huniq d n v Hrow. rewrite lookup_key.
    set (P := λ r, (domain r = d ∧ name r = n) ∧ user_id r = uid).
    assert (Setting uid d n v ∈ filter P (settings_table (conn w))) as Hin
      by (apply list_elem_of_filter; done).
    destruct (last (filter P (settings_table (conn w)))) as [r|] eqn:Hlast.
    + apply last_Some_elem_of in Hlast.
      apply list_elem_of_filter in Hlast as [[[Hd Hn] Hu] Hr].
      simpl. f_equal.
      apply (unique_keys_inj _ r (Setting uid d n v) Huniq Hr Hrow).
      unfold key. simpl. by rewrite Hd, Hn, Hu.
    + apply last_None in Hlast. rewrite Hlast in Hin.
      by apply not_elem_of_nil in Hin.
Qed.

Lemma get_settings_reads_rows_witness :
  let row := Setting 1 (py "d") (py "n") (py "v") in
  let w0 := World (Database [] [row]) (Database [] [row]) [] [] [] ∅ ∅ in
  ∃ m, fst (get_settings 1 w0) = Ok m
       ∧ nested_lookup m (py "d") (py "n") = Some (py "v").
Proof.
  intros row w0.
  destruct (get_settings_reads_rows 1 w0) as (m & Hm & _ & Hrows).
  - discriminate.
  - exists m. split; [exact Hm|]. apply Hrows.
    + apply (bool_decide_unpack _). vm_compute. exact I.
    + left.
Defined.

Lemma group_rows_domains rows d :
  match group_rows rows !! d with
  | Some dm => dm ≠ ∅ ∧ ∃ r, r ∈ rows ∧ domain r = d
  | None => ∀ r, r ∈ rows → domain r ≠ d
  end.
Proof.
  induction rows as [|r rows IH] using rev_ind.
  - unfold group_rows; simpl. rewrite lookup_empty.
    intros r Hr. by apply not_elem_of_nil in Hr.
  - rewrite group_rows_snoc. unfold setdefault_set.
    destruct (decide (domain r = d)) as [<-|Hd].
    + rewrite lookup_insert_eq. split; [apply insert_non_empty|].
      exists r. split; [|done]. apply elem_of_app. right. by left.
    + rewrite lookup_insert_ne by done.
      destruct (group_rows rows !! d) as [dm|].
      * destruct IH as [Hne (r' & Hr' & Hd')]. split; [done|].
        exists r'. split; [|done]. apply elem_of_app. by left.
      * intros r' [Hr'|Hr']%elem_of_app; [by apply IH|].
        apply list_elem_of_singleton in Hr' as ->. done.
Qed.

(** X2. [get_settings] injects no default: a domain is a key of the returned
    mapping exactly when the user has a row in it, and no domain maps to an
    empty mapping. *)
Theorem get_settings_domains (uid : Z) (w : world) (d : str) :
  faults w !! 0%nat ≠ Some true →
  ∃ m, fst (get_settings uid w) = Ok m
       ∧ (is_Some (m !! d) ↔
          ∃ r, r ∈ settings_table (conn w) ∧ user_id r = uid ∧ domain r = d)
       ∧ m !! d ≠ Some ∅.
Proof.
  intros H0. rewrite get_settings_answers by done.
  eexists. split; [done|].
  pose proof (group_rows_domains
                (select_settings uid (settings_table (conn w))) d) as H.
  destruct (group_rows _ !! d) as [dm|].
  - destruct H as [Hne (r & Hr & Hd)]. split; [|by intros [= ->]].
    split; [|by eauto]. intros _. exists r.
    apply list_elem_of_filter in Hr as [Hu Hr]. done.
  - split; [|done]. split; [by intros [? ?]|].
    intros (r & Hr & Hu & Hd). exfalso. apply (H r); [|done].
    apply list_elem_of_filter. done.
Qed.

Lemma get_settings_domains_witness :
  let row := Setting 1 (py "d") (py "n") (py "v") in
  let w0 := World (Database [] [row]) (Database [] [row]) [] [] [] ∅ ∅ in
  ∃ m, fst (get_settings 1 w0) = Ok m ∧ m !! py "other" = None.
Proof.
  intros row w0.
  destruct (get_settings_domains 1 w0 (py "other")) as (m & Hm & Hdom & _).
  - discriminate.
  - exists m. split; [exact Hm|].
    destruct (m !! py "other") as [dm|] eqn:Hl; [|done].
    exfalso. destruct Hdom as [Hdom _].
    destruct (Hdom (mk_is_Some _ _ eq_refl)) as (r & Hr & _ & Hd).
    apply list_elem_of_singleton in Hr as ->. discriminate.
Defined.

(** ** The batch in closed form *)

Lemma envvar_statement_submitted uid req n :
  envvar_statement uid req n =
  match submitted req n with
  | Some v => InsertOrReplaceSetting (Setting uid (py "external-providers") n v)
  | None => DeleteSetting uid (py "external-providers") n
  end.
Proof.
  unfold envvar_statement, submitted.
  destruct (form req !! n) as [v|]; [destruct (truthy (strip v))|]; done.
Qed.

Lemma run_envvar_statement uid req n d :
  run_statement (envvar_statement uid req n) d =
  Database (user_table d)
    (filter (λ r, ¬ in_batch_scope uid [n] r) (settings_table d)
     ++ new_rows uid req [n]).
Proof.
  assert (∀ t : list setting,
            filter (λ r, same_key uid (py "external-providers") n r = false) t
               = filter (λ r, ¬ in_batch_scope uid [n] r) t) as Hfil.
  { intros t. apply list_filter_iff. intros r. rewrite same_key_false.
    unfold in_batch_scope. rewrite list_elem_of_singleton. tauto. }
  rewrite envvar_statement_submitted. unfold new_rows. simpl.
  destruct (submitted req n) as [v|]; simpl.
  - unfold insert_or_replace; simpl. by rewrite Hfil.
  - unfold delete_where. by rewrite Hfil, app_nil_r.
Qed.

Lemma new_rows_in_scope uid req names r :
  r ∈ new_rows uid req names → in_batch_scope uid names r.
Proof.
  unfold new_rows. intros (n & Hn & Hr)%list_elem_of_omap.
  destruct (submitted req n) as [v|]; [|done].
  injection Hr as <-. done.
Qed.

Lemma new_rows_cons uid req n names :
  new_rows uid req (n :: names) = new_rows uid req [n] ++ new_rows uid req names.
Proof. unfold new_rows. by rewrite <- omap_app. Qed.

Lemma filter_all {A} (P : A → Prop) `{∀ x, Decision (P x)} (l : list A) :
  (∀ x, x ∈ l → P x) → filter P l = l.
Proof.
  induction l as [|x l IH]; intros Hl; [done|].
  rewrite filter_cons, decide_True by (apply Hl; left).
  f_equal. apply IH. intros y Hy. apply Hl. by right.
Qed.

(** The loop, run to its end, leaves the rows outside its scope in place
    and in order, followed by one row for each name the form gives a text
    to, in the order of the loop. *)
Lemma batch_closed_form uid req names d :
  NoDup names →
  run_statements (batch uid req names) d =
  Database (user_table d)
    (filter (λ r, ¬ in_batch_scope uid names r) (settings_table d)
     ++ new_rows uid req names).
Proof.
  intros Hnd. revert d. induction Hnd as [|n names Hn Hnd IH]; intros d.
  - unfold batch, run_statements, new_rows; simpl. rewrite app_nil_r.
    rewrite filter_all; [by destruct d|].
    intros r _ (_ & _ & Hin). by apply not_elem_of_nil in Hin.
  - assert (run_statements (batch uid req (n :: names)) d
            = run_statements (batch uid req names)
                (run_statement (envvar_statement uid req n) d)) as -> by done.
    rewrite IH, run_envvar_statement. cbn [user_table settings_table].
    f_equal. rewrite filter_app, list_filter_filter.
    rewrite (filter_all _ (new_rows uid req [n])).
    + rewrite (new_rows_cons uid req n names).
      rewrite <- app_assoc. f_equal.
      apply list_filter_iff. intros r. unfold in_batch_scope.
      rewrite !elem_of_cons, elem_of_nil. tauto.
    + intros r Hr%new_rows_in_scope (_ & _ & Hin).
      destruct Hr as (_ & _ & Hname%list_elem_of_singleton).
      apply Hn. by rewrite <- Hname.
Qed.

(** ** The uniqueness constraint *)

Lemma unique_keys_filter (P : setting → Prop) `{∀ r, Decision (P r)} t :
  unique_keys t → unique_keys (filter P t).
Proof.
  unfold unique_keys. intros Hnd. eapply sublist_NoDup; [exact Hnd|].
  apply fmap_sublist, sublist_filter.
Qed.

Lemma unique_keys_run_statement s d :
  unique_keys (settings_table d) →
  unique_keys (settings_table (run_statement s d)).
Proof.
  intros Hu. destruct s as [r0|uid dom n| | | | |]; simpl; try done.
  - unfold insert_or_replace, unique_keys. rewrite fmap_app.
    apply NoDup_app. split; [by apply unique_keys_filter|].
    split; [|apply NoDup_singleton].
    intros k (r & -> & Hr)%list_elem_of_fmap Hk%list_elem_of_singleton.
    apply list_elem_of_filter in Hr as [Hr _].
    apply same_key_false in Hr. apply Hr.
    unfold key in Hk. by injection Hk.
  - by apply unique_keys_filter.
Qed.

Lemma unique_keys_run_statements ss d :
  unique_keys (settings_table d) →
  unique_keys (settings_table (run_statements ss d)).
Proof.
  revert d. induction ss as [|s ss IH]; intros d Hu; [done|].
  change (run_statements (s :: ss) d)
    with (run_statements ss (run_statement s d)).
  by apply IH, unique_keys_run_statement.
Qed.

(** ** What a request leaves committed *)

Lemma external_providers_committed (req : request) (g : request_globals)
    (w : world) :
  conn w = disk w →
  let out := login_required_allow_demo (external_providers req) g w in
  disk (snd out) = disk w
  ∨ ∃ u, g_user g = Some u ∧ g_is_demo_user g = false ∧ method req = POST
         ∧ fault_within (S (length EXTERNAL_PROVIDER_ENVVARS)) w = false
         ∧ disk (snd out)
           = run_statements (batch (id u) req EXTERNAL_PROVIDER_ENVVARS) (disk w).
Proof.
  intros Hfresh out.
  destruct (g_user g) as [u|] eqn:Hu.
  2:{ left. subst out. unfold login_required_allow_demo. by rewrite Hu. }
  destruct (g_is_demo_user g) eqn:Hd.
  { left. subst out. unfold login_required_allow_demo. rewrite Hu.
    unfold external_providers, is_demo_user. rewrite Hd.
    fold (render_external_providers g). unfold mbind, M_bind. cbn [flash].
    match goal with |- context [render_external_providers g ?w0] =>
      destruct (render_external_providers_effect g w0) as (_ & Hdk & _) end.
    by rewrite Hdk. }
  destruct (method req) eqn:Hm.
  1,2: left; subst out; unfold login_required_allow_demo; rewrite Hu;
    unfold external_providers, is_demo_user; rewrite Hd, Hm;
    fold (render_external_providers g); unfold mbind, M_bind;
    cbn [mret M_ret];
    destruct (render_external_providers_effect g w) as (_ & Hdk & _);
    by rewrite Hdk.
  pose proof (external_providers_post_disk req g u w Hu Hd Hm Hfresh) as Hdisk.
  fold out in Hdisk.
  destruct (fault_within (S (length EXTERNAL_PROVIDER_ENVVARS)) w) eqn:Hf.
  - left. by destruct Hdisk.
  - right. exists u. done.
Qed.

(** X3. The endpoint keeps the uniqueness constraint: if no two committed
    rows share a key [(user_id, domain, name)] before a request, none do
    after it, whatever the request and wherever the store fails. *)
Theorem external_providers_keeps_unique_keys
    (req : request) (g : request_globals) (w : world) :
  conn w = disk w →
  unique_keys (settings_table (disk w)) →
  unique_keys
    (settings_table
       (disk (snd (login_required_allow_demo (external_providers req) g w)))).
Proof.
  intros Hfresh Hu.
  destruct (external_providers_committed req g w Hfresh)
    as [->|(u & _ & _ & _ & _ & ->)]; [done|].
  by apply unique_keys_run_statements.
Qed.

(** X4. A submission only concerns the user who makes it: for every other
    user, what [get_settings] reads from the committed store is the same
    before and after the request. *)
Theorem external_providers_leaves_other_users
    (req : request) (g : request_globals) (u : user_dict) (w : world)
    (uid' : Z) :
  conn w = disk w → g_user g = Some u → uid' ≠ id u →
  get_all (snd (login_required_allow_demo (external_providers req) g w)) uid'
  = get_all w uid'.
Proof.
  intros Hfresh Hu Hne.
  destruct (external_providers_committed req g w Hfresh)
    as [Hdisk|(u' & Hu' & _ & _ & _ & Hdisk)]; [by apply get_all_disk|].
  rewrite Hu in Hu'. injection Hu' as <-.
  unfold get_all, select_settings. rewrite Hdisk.
  rewrite <- (take_ge (batch _ _ _)
               (length (batch (id u) req EXTERNAL_PROVIDER_ENVVARS))) by done.
  f_equal. apply batch_frame. intros r n Hr _ (Hu' & _). congruence.
Qed.

Lemma batch_idempotent uid req names d :
  NoDup names →
  run_statements (batch uid req names) (run_statements (batch uid req names) d)
  = run_statements (batch uid req names) d.
Proof.
  intros Hnd. rewrite !batch_closed_form by done.
  cbn [user_table settings_table]. f_equal.
  rewrite filter_app. rewrite (filter_none _ (new_rows uid req names)).
  - rewrite app_nil_r. f_equal. apply list_filter_filter_l. done.
  - intros r Hr Hout. by apply Hout, new_rows_in_scope with (req := req).
Qed.

(** X5. Saving is idempotent: when a submission has been carried out, the
    same form submitted again by the same user, and carried out, leaves the
    committed store exactly as the first submission left it. *)
Theorem external_providers_idempotent
    (req : request) (g : request_globals) (u : user_dict) (w : world) :
  g_user g = Some u → g_is_demo_user g = false → method req = POST →
  conn w = disk w →
  let view := login_required_allow_demo (external_providers req) g in
  let k := S (length EXTERNAL_PROVIDER_ENVVARS) in
  let w1 := close_db (snd (view w)) in
  fault_within k w = false →
  fault_within k w1 = false →
  disk (snd (view w1)) = disk w1.
Proof.
  intros Hu Hd Hm Hfresh view k w1 Hf Hf1. subst view k.
  pose proof (external_providers_post_disk req g u w Hu Hd Hm Hfresh) as H.
  rewrite Hf in H.
  pose proof (external_providers_post_disk req g u w1 Hu Hd Hm eq_refl) as H1.
  rewrite Hf1 in H1. rewrite H1.
  subst w1. rewrite disk_close_db, H.
  apply batch_idempotent, NoDup_EXTERNAL_PROVIDER_ENVVARS.
Qed.

Lemma batch_ext uid req1 req2 names :
  (∀ n, n ∈ names → submitted req1 n = submitted req2 n) →
  batch uid req1 names = batch uid req2 names.
Proof.
  intros Hsub. unfold batch. apply list_fmap_ext. intros i n Hn.
  rewrite !envvar_statement_submitted, Hsub; [done|].
  by eapply list_elem_of_lookup_2.
Qed.

(** X6. The endpoint reads a form only through the trimmed texts of the
    names of the catalog: two requests with the same method whose forms
    agree on them have the same outcome, response and world alike.  So a
    field outside the catalog, white space around a value, or a blank field
    in place of a missing one makes no difference. *)
Theorem external_providers_reads_trimmed_catalog_fields
    (req1 req2 : request) (g : request_globals) (w : world) :
  method req1 = method req2 →
  (∀ n, n ∈ EXTERNAL_PROVIDER_ENVVARS → submitted req1 n = submitted req2 n) →
  login_required_allow_demo (external_providers req1) g w
  = login_required_allow_demo (external_providers req2) g w.
Proof.
  intros Hm Hsub. unfold login_required_allow_demo.
  destruct (g_user g) as [u|] eqn:Hu; [|done].
  unfold external_providers. rewrite <- Hm.
  destruct (is_demo_user g); [done|].
  destruct (method req1); try done.
  unfold mbind, M_bind.
  rewrite !(save_envvars_db_calls _ _ u) by done.
  by rewrite (batch_ext _ req1 req2).
Qed.

(** ** Stored values are trimmed *)

Lemma lstrip_head s c : head (lstrip s) = Some c → isspace c = false.
Proof.
  induction s as [|c0 s IH]; simpl; [done|].
  destruct (isspace c0) eqn:Hc0; [done|]. by intros [= <-].
Qed.

Lemma lstrip_last s c : last (lstrip s) = Some c → last s = Some c.
Proof.
  induction s as [|c0 s IH]; simpl; [done|].
  destruct (isspace c0); [|done].
  intros H. specialize (IH H). rewrite last_cons, IH. done.
Qed.

Lemma lstrip_fixed s : (∀ c, head s = Some c → isspace c = false) → lstrip s = s.
Proof.
  destruct s as [|c0 s]; simpl; [done|]. intros H. by rewrite (H c0).
Qed.

Lemma rstrip_last s c : last (rstrip s) = Some c → isspace c = false.
Proof.
  unfold rstrip. rewrite last_reverse. apply lstrip_head.
Qed.

Lemma rstrip_fixed s : (∀ c, last s = Some c → isspace c = false) → rstrip s = s.
Proof.
  intros H. unfold rstrip. rewrite lstrip_fixed.
  - apply reverse_involutive.
  - intros c. rewrite head_reverse. apply H.
Qed.

Lemma strip_trimmed s : truthy (strip s) = true → trimmed (strip s).
Proof.
  intros Ht. split; [by destruct (strip s)|]. split.
  - intros c. apply lstrip_head.
  - intros c Hc. apply lstrip_last in Hc. by eapply rstrip_last.
Qed.

Lemma trimmed_strip s : trimmed s → strip s = s.
Proof.
  intros (_ & Hh & Hl). unfold strip. rewrite rstrip_fixed by done.
  by apply lstrip_fixed.
Qed.

Lemma submitted_trimmed req n v : submitted req n = Some v → trimmed v.
Proof.
  unfold submitted. destruct (form req !! n) as [raw|]; [|done].
  destruct (truthy (strip raw)) eqn:Ht; [|done].
  intros [= <-]. by apply strip_trimmed.
Qed.

Lemma closed_form_row_trimmed uid req names (t : list setting) r :
  r ∈ filter (λ r, ¬ in_batch_scope uid names r) t ++ new_rows uid req names →
  in_batch_scope uid names r →
  submitted req (name r) = Some (value r)
  ∧ trimmed (value r)
  ∧ strip (value r) = value r.
Proof.
  intros [Hr|Hr]%elem_of_app Hscope.
  { apply list_elem_of_filter in Hr as [Hout _]. by destruct Hout. }
  unfold new_rows in Hr. apply list_elem_of_omap in Hr as (n & Hn & Hrow).
  destruct (submitted req n) as [v|] eqn:Hsub; [|done].
  injection Hrow as <-. cbn [name value].
  pose proof (submitted_trimmed _ _ _ Hsub) as Htr.
  split; [done|]. split; [done|]. by apply trimmed_strip.
Qed.

(** X7. Once a submission has been carried out, every row the user has in
    the catalog is a row of this form: its value is the trimmed text of the
    field, it is not empty, has no white space at either end, and trimming
    it again gives the same text. *)
Theorem external_providers_stores_trimmed_values
    (req : request) (g : request_globals) (u : user_dict) (w : world)
    (r : setting) :
  g_user g = Some u → g_is_demo_user g = false → method req = POST →
  conn w = disk w →
  fault_within (S (length EXTERNAL_PROVIDER_ENVVARS)) w = false →
  r ∈ settings_table
        (disk (snd (login_required_allow_demo (external_providers req) g w))) →
  user_id r = id u → in_catalog r →
  submitted req (name r) = Some (value r)
  ∧ trimmed (value r)
  ∧ strip (value r) = value r.
Proof.
  intros Hu Hd Hm Hfresh Hf Hr Huid [Hdom Hname].
  pose proof (external_providers_post_disk req g u w Hu Hd Hm Hfresh) as H.
  rewrite Hf in H. rewrite H in Hr.
  rewrite batch_closed_form in Hr by apply NoDup_EXTERNAL_PROVIDER_ENVVARS.
  eapply closed_form_row_trimmed; [exact Hr|].
  split; [exact Huid|]. split; [exact Hdom|exact Hname].
Qed.

(** ** The page after a submission *)

Lemma flashes_after_calls ss w : flashes (after_calls ss w) = flashes w.
Proof.
  revert w. induction ss as [|s ss IH]; intros w; [done|].
  by rewrite after_calls_cons, IH.
Qed.

Lemma faults_after_calls ss w :
  faults (after_calls ss w) = drop (length ss) (faults w).
Proof.
  revert w. induction ss as [|s ss IH]; intros w; [done|].
  rewrite after_calls_cons, IH. simpl.
  destruct (faults w); simpl; [by rewrite drop_nil|done].
Qed.

Lemma render_external_providers_answers g u w :
  g_user g = Some u → faults w !! 0%nat ≠ Some true →
  render_external_providers g w
  = (Ok (Rendered (py "settings/external_providers.html")
           (default ∅ (group_rows (select_settings (id u) (settings_table (conn w)))
                         !! py "external-providers"))),
     after_call (SelectSettings (id u)) w).
Proof.
  intros Hu H0. unfold render_external_providers, g_user_get. rewrite Hu.
  unfold mbind, M_bind, mret, M_ret. by rewrite get_settings_answers.
Qed.

Lemma default_lookup_nested (m : gmap str (gmap str str)) d n :
  default ∅ (m !! d) !! n = nested_lookup m d n.
Proof.
  unfold nested_lookup. destruct (m !! d); simpl; [done|apply lookup_empty].
Qed.

Lemma fault_within_lookup k w i :
  fault_within k w = false → (i < k)%nat → faults w !! i ≠ Some true.
Proof.
  unfold fault_within. generalize (faults w). clear w.
  revert i. induction k as [|k IH]; intros i fs Hf Hi; [lia|].
  destruct fs as [|b fs]; [done|].
  simpl in Hf. apply orb_false_elim in Hf as [-> Hf].
  destruct i as [|i]; [done|]. simpl. apply IH; [done|lia].
Qed.

(** The page rendered once the batch is committed, for any world [w1] the
    statements of the batch have led to. *)
Lemma saved_page g u w1 :
  g_user g = Some u → faults w1 !! 1%nat ≠ Some true →
  let out := render_external_providers g
               (snd (flash (py "Settings saved successfully.") (py "success")
                       (after_call Commit w1))) in
  fst out
  = Ok (Rendered (py "settings/external_providers.html")
          (default ∅ (group_rows (select_settings (id u) (settings_table (conn w1)))
                        !! py "external-providers")))
  ∧ flashes (snd out)
    = flashes w1 ++ [(py "Settings saved successfully.", py "success")].
Proof.
  intros Hu H1 out. subst out.
  rewrite (render_external_providers_answers g u); [done|done|].
  cbn [flash snd faults after_call]. by rewrite lookup_tail.
Qed.

(** X8. When the store carries out a submission and the read that follows,
    the answer is the settings page showing what was saved: for each name of
    the catalog the page carries the trimmed text of the field, and no entry
    where the field was blank or missing; the message "Settings saved
    successfully." is flashed. *)
Theorem external_providers_shows_saved
    (req : request) (g : request_globals) (u : user_dict) (w : world) :
  g_user g = Some u → g_is_demo_user g = false → method req = POST →
  fault_within (S (S (length EXTERNAL_PROVIDER_ENVVARS))) w = false →
  let out := login_required_allow_demo (external_providers req) g w in
  ∃ m, fst out = Ok (Rendered (py "settings/external_providers.html") m)
       ∧ (∀ n, n ∈ EXTERNAL_PROVIDER_ENVVARS → m !! n = submitted req n)
       ∧ flashes (snd out)
         = flashes w ++ [(py "Settings saved successfully.", py "success")].
Proof.
  intros Hu Hd Hm Hf out. subst out.
  unfold login_required_allow_demo. rewrite Hu.
  pose proof (fault_within_lookup _ _ (S (length EXTERNAL_PROVIDER_ENVVARS)) Hf
                ltac:(lia)) as Hread.
  rewrite fault_within_S in Hf. apply orb_false_elim in Hf as [Hf _].
  rewrite fault_within_S in Hf. apply orb_false_elim in Hf as [Hf Hcommit].
  assert (length (batch (id u) req EXTERNAL_PROVIDER_ENVVARS)
          = length EXTERNAL_PROVIDER_ENVVARS) as Hlen by apply length_fmap.
  rewrite <- Hlen in Hf, Hcommit, Hread.
  destruct (db_calls_answers _ w Hf) as [_ Hnext].
  destruct (external_providers_post req g u w Hu Hd Hm)
    as [(Hf' & _)|[(_ & Hf1 & _)|(_ & _ & ->)]]; [congruence|congruence|].
  destruct (saved_page g u
              (after_calls (batch (id u) req EXTERNAL_PROVIDER_ENVVARS) w) Hu)
    as [-> ->].
  { rewrite faults_after_calls, lookup_drop, Nat.add_1_r. exact Hread. }
  eexists. split; [done|]. split; [|by rewrite flashes_after_calls].
  intros n Hn. rewrite default_lookup_nested, conn_after_calls.
  apply lookup_after_batch; [apply NoDup_EXTERNAL_PROVIDER_ENVVARS|done].
Qed.

(** ** The view [password], path by path *)

Lemma password_post_fields generate_password_hash check_password_hash
    (req : request) (g : request_globals) (u : user_dict) (w : world)
    (current new confirmation : str) :
  g_user g = Some u → g_is_demo_user g = false → method req = POST →
  form req !! py "current-password" = Some current →
  form req !! py "new-password" = Some new →
  form req !! py "new-password-confirmation" = Some confirmation →
  login_required_allow_demo
    (password generate_password_hash check_password_hash req) g w
  = (_ ← (if bool_decide (new ≠ confirmation) then
            flash (py "Password and confirmation do not match.") (py "danger")
          else
            correct ← is_password_correct check_password_hash (username u) current;
            if negb correct then
              flash (py "Incorrect current password.") (py "danger")
            else if (length new <? 10)%nat then
              flash (py "Password must be at least 10 characters long.")
                    (py "danger")
            else
              _ ← set_password generate_password_hash (username u) new;
              flash (py "Password changed successfully.") (py "success"));
     mret (Rendered (py "settings/password.html") ∅)) w.
Proof.
  intros Hu Hd Hm Hcur Hnew Hconf.
  unfold login_required_allow_demo. rewrite Hu.
  unfold password, is_demo_user, form_get, g_user_get.
  rewrite Hd, Hm, Hcur, Hnew, Hconf, Hu. done.
Qed.

Lemma is_password_correct_answers check_password_hash uname candidate w :
  faults w !! 0%nat ≠ Some true →
  is_password_correct check_password_hash uname candidate w
  = (Ok (verify check_password_hash (conn w) uname candidate),
     after_call (SelectUser uname) w).
Proof.
  intros H0. unfold is_password_correct, mbind, M_bind.
  by rewrite db_call_answers.
Qed.

(** X9. The three rejections of a password change come in a fixed order.  A
    confirmation that differs is reported first, and without any call into
    the store; then a current password that does not verify; only then a new
    password shorter than 10 characters.  Each time the page is rendered
    with exactly that one "danger" message. *)
Theorem password_rejections_in_order
    (generate_password_hash : str → str) (check_password_hash : str → str → bool)
    (req : request) (g : request_globals) (u : user_dict) (w : world)
    (current new confirmation : str) :
  g_user g = Some u → g_is_demo_user g = false → method req = POST →
  form req !! py "current-password" = Some current →
  form req !! py "new-password" = Some new →
  form req !! py "new-password-confirmation" = Some confirmation →
  let out := login_required_allow_demo
               (password generate_password_hash check_password_hash req) g w in
  let page := Ok (Rendered (py "settings/password.html") ∅) in
  let w1 := after_call (SelectUser (username u)) w in
  (new ≠ confirmation →
     out = (page, snd (flash (py "Password and confirmation do not match.")
                         (py "danger") w)))
  ∧ (new = confirmation → faults w !! 0%nat ≠ Some true →
     verify check_password_hash (conn w) (username u) current = false →
     out = (page, snd (flash (py "Incorrect current password.")
                         (py "danger") w1)))
  ∧ (new = confirmation → faults w !! 0%nat ≠ Some true →
     verify check_password_hash (conn w) (username u) current = true →
     (length new < 10)%nat →
     out = (page, snd (flash (py "Password must be at least 10 characters long.")
                         (py "danger") w1))).
Proof.
  intros Hu Hd Hm Hcur Hnew Hconf out page w1. subst out page w1.
  rewrite (password_post_fields _ _ req g u w current new confirmation)
    by done.
  split; [|split].
  - intros Hne. by rewrite bool_decide_eq_true_2.
  - intros Heq H0 Hv. rewrite bool_decide_eq_false_2 by (by intros ?).
    unfold mbind, M_bind. rewrite is_password_correct_answers by done.
    by rewrite Hv.
  - intros Heq H0 Hv Hlen. rewrite bool_decide_eq_false_2 by (by intros ?).
    unfold mbind, M_bind. rewrite is_password_correct_answers by done.
    rewrite Hv. apply Nat.ltb_lt in Hlen. by rewrite Hlen.
Qed.

(** X10. A password change with one of its three fields missing from the
    form fails with [BadRequestKeyError] before anything else happens: the
    world is exactly what it was, no message is flashed and the store is not
    called. *)
Theorem password_missing_field
    (generate_password_hash : str → str) (check_password_hash : str → str → bool)
    (req : request) (g : request_globals) (u : user_dict) (w : world) :
  g_user g = Some u → g_is_demo_user g = false → method req = POST →
  form req !! py "current-password" = None
  ∨ form req !! py "new-password" = None
  ∨ form req !! py "new-password-confirmation" = None →
  login_required_allow_demo
    (password generate_password_hash check_password_hash req) g w
  = (Raise BadRequestKeyError, w).
Proof.
  intros Hu Hd Hm Hmiss.
  unfold login_required_allow_demo. rewrite Hu.
  unfold password, is_demo_user, form_get. rewrite Hd, Hm.
  destruct (form req !! py "current-password") as [c|]; [|done].
  destruct (form req !! py "new-password") as [n|]; [|done].
  destruct (form req !! py "new-password-confirmation") as [c'|]; [|done].
  by destruct Hmiss as [?|[?|?]].
Qed.

Lemma select_user_update_password uname hash t r :
  select_user uname t = Some r →
  select_user uname (update_password uname hash t)
  = Some (UserRow (row_id r) (row_username r) hash).
Proof.
  unfold select_user, update_password.
  induction t as [|x t IH]; [done|].
  rewrite fmap_cons, !filter_cons.
  destruct (decide (row_username x = uname)) as [Hx|Hx].
  - rewrite bool_decide_eq_true_2 by done. simpl.
    rewrite decide_True by done. by intros [= ->].
  - rewrite bool_decide_eq_false_2 by done.
    rewrite decide_False by done. apply IH.
Qed.

Lemma select_user_update_password_other uname uname' hash t :
  uname' ≠ uname →
  select_user uname' (update_password uname hash t) = select_user uname' t.
Proof.
  intros Hne. unfold select_user, update_password.
  induction t as [|x t IH]; [done|].
  rewrite fmap_cons, !filter_cons.
  destruct (decide (row_username x = uname)) as [Hx|Hx].
  - rewrite bool_decide_eq_true_2 by done. simpl.
    rewrite !decide_False by congruence. apply IH.
  - rewrite bool_decide_eq_false_2 by done.
    destruct (decide (row_username x = uname')); [done|apply IH].
Qed.

(** X11. A password change that passes the three checks, on a store that
    answers, replaces the hash of the user and commits: the new hash is the
    one [generate_password_hash] gives for the new password, so the new
    password verifies afterwards as far as the hashing checks what it
    generates; the other users verify as before, the settings rows are
    untouched, and "Password changed successfully." is flashed. *)
Theorem password_changed
    (generate_password_hash : str → str) (check_password_hash : str → str → bool)
    (req : request) (g : request_globals) (u : user_dict) (w : world)
    (current new : str) :
  g_user g = Some u → g_is_demo_user g = false → method req = POST →
  form req !! py "current-password" = Some current →
  form req !! py "new-password" = Some new →
  form req !! py "new-password-confirmation" = Some new →
  verify check_password_hash (conn w) (username u) current = true →
  (10 ≤ length new)%nat →
  fault_within 3 w = false →
  let out := login_required_allow_demo
               (password generate_password_hash check_password_hash req) g w in
  let w' := snd out in
  fst out = Ok (Rendered (py "settings/password.html") ∅)
  ∧ flashes w' = flashes w ++ [(py "Password changed successfully.", py "success")]
  ∧ disk w' = conn w'
  ∧ settings_table (disk w') = settings_table (conn w)
  ∧ (∀ candidate,
       verify check_password_hash (disk w') (username u) candidate
       = check_password_hash (generate_password_hash new) candidate)
  ∧ (∀ uname candidate, uname ≠ username u →
       verify check_password_hash (disk w') uname candidate
       = verify check_password_hash (conn w) uname candidate).
Proof.
  intros Hu Hd Hm Hcur Hnew Hconf Hv Hlen Hf out w'. subst w' out.
  rewrite (password_post_fields _ _ req g u w current new new) by done.
  rewrite bool_decide_eq_false_2 by (by intros ?).
  unfold mbind, M_bind.
  rewrite is_password_correct_answers by eauto using fault_within_head.
  apply (fault_within_after_call _ (SelectUser (username u))) in Hf.
  rewrite Hv. cbn [negb].
  apply Nat.ltb_ge in Hlen. rewrite Hlen.
  set (w1 := after_call (SelectUser (username u)) w) in *.
  assert (conn w1 = conn w) as Hc1 by done.
  unfold set_password, mbind, M_bind, read_conn. rewrite Hc1.
  unfold verify in Hv.
  destruct (select_user (username u) (user_table (conn w))) as [r|] eqn:Hsel;
    [|done].
  set (s2 := UpdatePassword (username u) (generate_password_hash new)).
  rewrite (db_call_answers s2) by eauto using fault_within_head.
  apply (fault_within_after_call _ s2) in Hf.
  rewrite (db_call_answers Commit) by eauto using fault_within_head.
  cbn [flash fst snd flashes disk conn after_call run_statement
       settings_table user_table mret M_ret].
  subst w1 s2. cbn [conn flashes after_call run_statement settings_table].
  repeat split.
  - intros candidate. unfold verify. cbn [user_table].
    by rewrite (select_user_update_password _ _ _ r).
  - intros uname candidate Hne. unfold verify. cbn [user_table].
    by rewrite select_user_update_password_other.
Qed.

(** ** Requests that are not submissions *)

(** X12. A request that is not a POST changes nothing through either view,
    whoever makes it: the committed store and the view of the connection are
    the same afterwards and no write is sent; [password] does not call the
    store at all. *)
Theorem views_safe_unless_post
    (generate_password_hash : str → str) (check_password_hash : str → str → bool)
    (req : request) (g : request_globals) (w : world) :
  method req ≠ POST →
  let out_p := login_required_allow_demo
                 (password generate_password_hash check_password_hash req) g w in
  let out_e := login_required_allow_demo (external_providers req) g w in
  disk (snd out_p) = disk w ∧ conn (snd out_p) = conn w
  ∧ trace (snd out_p) = trace w
  ∧ disk (snd out_e) = disk w ∧ conn (snd out_e) = conn w
  ∧ filter (λ s, is_write s = true) (trace (snd out_e))
    = filter (λ s, is_write s = true) (trace w).
Proof.
  intros Hm out_p out_e. subst out_p out_e.
  unfold login_required_allow_demo.
  destruct (g_user g) as [u|] eqn:Hu; [|done].
  assert (∀ w0, disk w0 = disk w → conn w0 = conn w →
            filter (λ s, is_write s = true) (trace w0)
            = filter (λ s, is_write s = true) (trace w) →
            let out := render_external_providers g w0 in
            disk (snd out) = disk w ∧ conn (snd out) = conn w
            ∧ filter (λ s, is_write s = true) (trace (snd out))
              = filter (λ s, is_write s = true) (trace w)) as Hrender.
  { intros w0 Hd0 Hc0 Ht0 out.
    destruct (render_external_providers_reads g w0) as (Hd & Hc & _ & Ht & _).
    fold out in Hd, Hc, Ht. rewrite Hd, Hc. split; [done|]. split; [done|].
    destruct Ht as [->|[uid ->]]; [done|].
    by rewrite filter_app, filter_cons, filter_nil, decide_False, app_nil_r. }
  unfold password, external_providers, is_demo_user.
  fold (render_external_providers g).
  destruct (g_is_demo_user g).
  - unfold mbind, M_bind. cbn [flash mret M_ret fst snd disk conn trace].
    split; [done|]. split; [done|]. split; [done|].
    by apply Hrender.
  - destruct (method req); [| |done].
    all: unfold mbind, M_bind; cbn [mret M_ret fst snd].
    all: split; [done|]; split; [done|]; split; [done|]; by apply Hrender.
Qed.

Lemma save_envvars_no_user g req n names w :
  g_user g = None →
  save_envvars g req (n :: names) w = (Raise TypeError, w).
Proof.
  intros Hu. cbn [save_envvars]. unfold g_user_get. by rewrite Hu.
Qed.

Lemma EXTERNAL_PROVIDER_ENVVARS_cons :
  ∃ n names, EXTERNAL_PROVIDER_ENVVARS = n :: names.
Proof. by eexists _, _. Qed.

(** X13. Called without an identity, that is without the gate in front, the
    view [external_providers] fails with [TypeError] at its first use of
    [g.user] and leaves the world as it was: not one statement of the batch
    is sent. *)
Theorem external_providers_needs_identity
    (req : request) (g : request_globals) (w : world) :
  g_user g = None → g_is_demo_user g = false →
  external_providers req g w = (Raise TypeError, w).
Proof.
  intros Hu Hd. unfold external_providers, is_demo_user. rewrite Hd.
  destruct EXTERNAL_PROVIDER_ENVVARS_cons as (n & names & ->).
  unfold mbind, M_bind.
  destruct (method req).
  1,2: cbn [mret M_ret]; unfold g_user_get; by rewrite Hu.
  by rewrite save_envvars_no_user.
Qed.

(** ** The further properties on concrete requests *)

Lemma external_providers_keeps_unique_keys_witness :
  let row := Setting 1 (py "external-providers") (py "OPENAI_API_KEY") (py "sk-1") in
  let w0 := World (Database [] [row]) (Database [] [row]) [] [] [] ∅ ∅ in
  let req := Request POST {[ py "OPENAI_API_KEY" := py "sk-2" ]} in
  let g := Globals (Some (UserDict 1 (py "test"))) false in
  unique_keys (settings_table (disk w0))
  ∧ unique_keys
      (settings_table
         (disk (snd (login_required_allow_demo (external_providers req) g w0)))).
Proof.
  intros row w0 req g.
  assert (unique_keys (settings_table (disk w0))) as Huniq
    by (apply (bool_decide_unpack _); vm_compute; exact I).
  split; [exact Huniq|].
  exact (external_providers_keeps_unique_keys req g w0 eq_refl Huniq).
Defined.

Lemma external_providers_leaves_other_users_witness :
  let mine := Setting 1 (py "external-providers") (py "OPENAI_API_KEY") (py "sk-1") in
  let theirs := Setting 2 (py "external-providers") (py "OPENAI_API_KEY") (py "sk-9") in
  let w0 := World (Database [] [mine; theirs]) (Database [] [mine; theirs])
                  [] [] [] ∅ ∅ in
  let req := Request POST ∅ in
  let g := Globals (Some (UserDict 1 (py "test"))) false in
  get_all (snd (login_required_allow_demo (external_providers req) g w0)) 2
  = get_all w0 2.
Proof.
  intros mine theirs w0 req g.
  refine (external_providers_leaves_other_users req g (UserDict 1 (py "test"))
            w0 2 eq_refl eq_refl _).
  discriminate.
Defined.

Lemma external_providers_idempotent_witness :
  let w0 := World (Database [] []) (Database [] []) [] [] [] ∅ ∅ in
  let req := Request POST {[ py "OPENAI_API_KEY" := py " sk-2 " ]} in
  let g := Globals (Some (UserDict 1 (py "test"))) false in
  let view := login_required_allow_demo (external_providers req) g in
  let w1 := close_db (snd (view w0)) in
  disk (snd (view w1)) = disk w1.
Proof.
  intros w0 req g view w1.
  refine (external_providers_idempotent req g (UserDict 1 (py "test")) w0
            eq_refl eq_refl eq_refl eq_refl _ _).
  - vm_compute. reflexivity.
  - vm_compute. reflexivity.
Defined.

Lemma external_providers_reads_trimmed_catalog_fields_witness :
  let req1 := Request POST
    (<[py "OPENAI_API_KEY" := py "  sk-2 "]>
       (<[py "COHERE_API_KEY" := py "   "]>
          (<[py "NOT_IN_THE_CATALOG" := py "x"]> ∅))) in
  let req2 := Request POST {[ py "OPENAI_API_KEY" := py "sk-2" ]} in
  let g := Globals (Some (UserDict 1 (py "test"))) false in
  let w0 := World (Database [] []) (Database [] []) [] [] [] ∅ ∅ in
  login_required_allow_demo (external_providers req1) g w0
  = login_required_allow_demo (external_providers req2) g w0.
Proof.
  intros req1 req2 g w0.
  refine (external_providers_reads_trimmed_catalog_fields req1 req2 g w0
            eq_refl _).
  apply Forall_forall. apply (bool_decide_unpack _). vm_compute. exact I.
Defined.

Lemma external_providers_stores_trimmed_values_witness :
  let w0 := World (Database [] []) (Database [] []) [] [] [] ∅ ∅ in
  let req := Request POST {[ py "OPENAI_API_KEY" := py " sk-2 " ]} in
  let g := Globals (Some (UserDict 1 (py "test"))) false in
  let r := Setting 1 (py "external-providers") (py "OPENAI_API_KEY") (py "sk-2") in
  submitted req (name r) = Some (value r)
  ∧ trimmed (value r)
  ∧ strip (value r) = value r.
Proof.
  intros w0 req g r.
  refine (external_providers_stores_trimmed_values req g (UserDict 1 (py "test"))
            w0 r eq_refl eq_refl eq_refl eq_refl _ _ eq_refl _).
  - vm_compute. reflexivity.
  - apply (bool_decide_unpack _). vm_compute. exact I.
  - apply (bool_decide_unpack _). vm_compute. exact I.
Defined.

Lemma external_providers_shows_saved_witness :
  let w0 := World (Database [] []) (Database [] []) [] [] [] ∅ ∅ in
  let req := Request POST {[ py "OPENAI_API_KEY" := py " sk-2 " ]} in
  let g := Globals (Some (UserDict 1 (py "test"))) false in
  let out := login_required_allow_demo (external_providers req) g w0 in
  ∃ m, fst out = Ok (Rendered (py "settings/external_providers.html") m)
       ∧ (∀ n, n ∈ EXTERNAL_PROVIDER_ENVVARS → m !! n = submitted req n)
       ∧ flashes (snd out)
         = flashes w0 ++ [(py "Settings saved successfully.", py "success")].
Proof.
  intros w0 req g.
  refine (external_providers_shows_saved req g (UserDict 1 (py "test")) w0
            eq_refl eq_refl eq_refl _).
  vm_compute. reflexivity.
Defined.

Lemma password_rejections_in_order_witness :
  let row := UserRow 1 (py "test") (tagged_hash (py "test")) in
  let w0 := World (Database [row] []) (Database [row] []) [] [] [] ∅ ∅ in
  let req := Request POST
    (<[py "current-password" := py "wrong"]>
       (<[py "new-password" := py "short"]>
          (<[py "new-password-confirmation" := py "other"]> ∅))) in
  let g := Globals (Some (UserDict 1 (py "test"))) false in
  login_required_allow_demo (password tagged_hash tagged_check req) g w0
  = (Ok (Rendered (py "settings/password.html") ∅),
     snd (flash (py "Password and confirmation do not match.") (py "danger") w0)).
Proof.
  intros row w0 req g.
  pose proof (password_rejections_in_order tagged_hash tagged_check req g
                (UserDict 1 (py "test")) w0 (py "wrong") (py "short") (py "other")
                eq_refl eq_refl eq_refl) as H.
  destruct H as [H _]; [vm_compute; reflexivity..|].
  apply H. discriminate.
Defined.

Lemma password_missing_field_witness :
  let w0 := World (Database [] []) (Database [] []) [] [] [] ∅ ∅ in
  let req := Request POST {[ py "new-password" := py "a-long-password" ]} in
  let g := Globals (Some (UserDict 1 (py "test"))) false in
  login_required_allow_demo (password tagged_hash tagged_check req) g w0
  = (Raise BadRequestKeyError, w0).
Proof.
  intros w0 req g.
  refine (password_missing_field tagged_hash tagged_check req g
            (UserDict 1 (py "test")) w0 eq_refl eq_refl eq_refl _).
  left. vm_compute. reflexivity.
Defined.

Lemma password_changed_witness :
  let row := UserRow 1 (py "test") (tagged_hash (py "test")) in
  let w0 := World (Database [row] []) (Database [row] []) [] [] [] ∅ ∅ in
  let req := Request POST
    (<[py "current-password" := py "test"]>
       (<[py "new-password" := py "a-long-password"]>
          (<[py "new-password-confirmation" := py "a-long-password"]> ∅))) in
  let g := Globals (Some (UserDict 1 (py "test"))) false in
  let out := login_required_allow_demo
               (password tagged_hash tagged_check req) g w0 in
  verify tagged_check (disk w0) (py "test") (py "a-long-password") = false
  ∧ verify tagged_check (disk (snd out)) (py "test") (py "a-long-password") = true
  ∧ verify tagged_check (disk (snd out)) (py "test") (py "test") = false.
Proof.
  intros row w0 req g out.
  pose proof (password_changed tagged_hash tagged_check req g
                (UserDict 1 (py "test")) w0 (py "test") (py "a-long-password")
                eq_refl eq_refl eq_refl) as H.
  destruct H as (_ & _ & _ & _ & Hv & _).
  1-3: vm_compute; reflexivity.
  - vm_compute. reflexivity.
  - vm_compute. lia.
  - vm_compute. reflexivity.
  - split; [vm_compute; reflexivity|].
    fold out in Hv. cbn [username] in Hv. rewrite !Hv.
    split; vm_compute; reflexivity.
Defined.

Lemma views_safe_unless_post_witness :
  let row := Setting 1 (py "external-providers") (py "OPENAI_API_KEY") (py "sk-1") in
  let w0 := World (Database [] [row]) (Database [] [row]) [] [] [] ∅ ∅ in
  let req := Request GET {[ py "OPENAI_API_KEY" := py "" ]} in
  let g := Globals (Some (UserDict 1 (py "test"))) false in
  disk (snd (login_required_allow_demo (external_providers req) g w0)) = disk w0.
Proof.
  intros row w0 req g.
  pose proof (views_safe_unless_post tagged_hash tagged_check req g w0) as H.
  destruct H as (_ & _ & _ & H & _); [discriminate|]. exact H.
Defined.

Lemma external_providers_needs_identity_witness :
  let w0 := World (Database [] []) (Database [] []) [] [] [] ∅ ∅ in
  let req := Request POST {[ py "OPENAI_API_KEY" := py "sk-2" ]} in
  external_providers req (Globals None false) w0 = (Raise TypeError, w0).
Proof.
  intros w0 req.
  exact (external_providers_needs_identity req (Globals None false) w0
           eq_refl eq_refl).
Defined.
